(** * hw0.js: provisioning and tearing down DigitalOcean droplets and
      AWS EC2 instances

    A shallow embedding of [hw0.js].  Asynchronous functions become
    computations in a small monad [M] that reads the outside world (the
    environment variable, the replies of the HTTP client and of the EC2
    SDK), appends every observable action to a trace, and ends in a
    returned value, a thrown error or a process exit. *)

From Stdlib Require Import String Ascii ZArith List Bool Lia Arith DecimalString.
Import ListNotations.
Local Open Scope string_scope.
Local Open Scope list_scope.
Local Open Scope Z_scope.

(** String concatenation, JavaScript's [+] on strings. *)
Infix "+++" := String.append (right associativity, at level 60).

(** ** JavaScript values that reach the provider methods as ids *)

Inductive JsVal :=
| JsUndefined
| JsNull
| JsBool (b : bool)
| JsNum (n : Z)
| JsStr (s : string).

Definition typeof (v : JsVal) : string :=
  match v with
  | JsUndefined => "undefined"
  | JsNull => "object"
  | JsBool _ => "boolean"
  | JsNum _ => "number"
  | JsStr _ => "string"
  end.

Definition show_Z (n : Z) : string := NilZero.string_of_int (Z.to_int n).

(** Template-literal interpolation [`${v}`]. *)
Definition js_toString (v : JsVal) : string :=
  match v with
  | JsUndefined => "undefined"
  | JsNull => "null"
  | JsBool true => "true"
  | JsBool false => "false"
  | JsNum n => show_Z n
  | JsStr s => s
  end.

(** ** Data exchanged with the DigitalOcean REST API *)

Record Headers := {
  Content_Type : string;
  Authorization : string
}.

(** The body of the droplet-create request, [data] in [createDroplet]; its
    [user_data] and [private_networking] are always [null]. *)
Record DropletData := {
  data_name : string;
  data_region : string;
  data_size : string;
  data_image : string;
  data_ssh_keys : list Z;
  data_backups : bool;
  data_ipv6 : bool
}.

Inductive Method := GET | POST | DELETE.

Record HttpRequest := {
  method : Method;
  url : string;
  req_headers : Headers;
  req_body : option DropletData
}.

Record SSHKey := { key_id : Z; key_name : string }.
(** An entry of [networks.v4]: the address and whether the interface is
    ["public"] or ["private"]. *)
Record NetworkV4 := { ip_address : string; type : string }.
Record Networks := { v4 : option (list NetworkV4) }.
Record Droplet := { droplet_id : Z; networks : option Networks }.

Record Body := {
  ssh_keys : option (list SSHKey);
  droplet : option Droplet
}.

Record HttpResponse := { statusCode : Z; body : option Body }.

(** Why a [got] promise rejects: no answer at all, or an answer whose
    status is not 2xx. *)
Inductive GotError :=
| RequestError (msg : string)
| HTTPError (status : Z).

Definition show_GotError (e : GotError) : string :=
  match e with
  | RequestError msg => "RequestError: " +++ msg
  | HTTPError status => "HTTPError: Response code " +++ show_Z status
  end.

(** ** Data exchanged with the EC2 SDK *)

Record InstanceParams := {
  ImageId : string;
  InstanceType : string;
  KeyName : string;
  MinCount : Z;
  MaxCount : Z
}.

Record Tag := { Key : string; Value : string }.
Record TagParams := { Resources : list JsVal; Tags : list Tag }.
Record IdParams := { InstanceIds : list JsVal }.

Record Instance := { InstanceId : string; PublicIpAddress : option string }.
Record RunInstancesResult := { run_Instances : list Instance }.
Record Reservation := { Instances : list Instance }.
Record DescribeInstancesResult := { Reservations : list Reservation }.
Record InstanceState := { Name : string }.
Record InstanceStateChange := { CurrentState : InstanceState }.
Record TerminateInstancesResult := {
  TerminatingInstances : list InstanceStateChange
}.

Inductive Ec2Call :=
| RunInstances (p : InstanceParams)
| CreateTags (p : TagParams)
| DescribeInstances (p : IdParams)
| TerminateInstances (p : IdParams).

(** ** Observable actions *)

Inductive RemoteCall :=
| Http (r : HttpRequest)
| Ec2 (c : Ec2Call).

Inductive Stream := Stdout | Stderr.
Inductive Style := plain | red | green | red_bold | italic.

Inductive Event :=
| Console (out : Stream) (st : Style) (msg : string)
| Remote (c : RemoteCall)
| Invoke (attempt : nat)
| Sleep (ms : Z).

Definition Trace := list Event.

Definition is_remote (e : Event) : bool :=
  match e with Remote _ => true | _ => false end.
Definition is_invoke (e : Event) : bool :=
  match e with Invoke _ => true | _ => false end.
Definition is_sleep (e : Event) : bool :=
  match e with Sleep _ => true | _ => false end.

Definition count (p : Event -> bool) (tr : Trace) : nat :=
  length (filter p tr).

(** Number of remote calls issued so far. *)
Definition calls (tr : Trace) : nat := count is_remote tr.
(** Number of times a retry loop has called its retrier so far. *)
Definition invocations (tr : Trace) : nat := count is_invoke tr.

(** ** The outside world

    A promise either resolves or rejects.  The replies of the remote
    services are indexed by the number of remote calls the process has
    issued before, so a stub can answer the successive probes of a poll
    loop differently. *)

Inductive Reply (A E : Type) :=
| Resolved (a : A)
| Rejected (e : E).
Arguments Resolved {A E} a.
Arguments Rejected {A E} e.

Record World := {
  NCSU_DOTOKEN : option string;
  uuid_v4 : string;
  got : nat -> HttpRequest -> Reply HttpResponse GotError;
  ec2_runInstances : nat -> InstanceParams -> Reply RunInstancesResult string;
  ec2_createTags : nat -> TagParams -> Reply unit string;
  ec2_describeInstances : nat -> IdParams -> Reply DescribeInstancesResult string;
  ec2_terminateInstances : nat -> IdParams -> Reply TerminateInstancesResult string;
  jitter : nat -> Z
}.

(** ** The monad of asynchronous functions *)

Inductive JsError :=
| Error (msg : string)
| TypeError (msg : string)
| AwsError (msg : string)
| Exhausted.

Inductive Outcome (A : Type) :=
| Returned (a : A)
| Thrown (e : JsError)
| Exited (code : Z).
Arguments Returned {A} a.
Arguments Thrown {A} e.
Arguments Exited {A} code.

Definition M (A : Type) : Type := World -> Trace -> Outcome A * Trace.

Definition ret {A} (a : A) : M A := fun _ s => (Returned a, s).

Definition bind {A B} (m : M A) (f : A -> M B) : M B :=
  fun w s =>
    match m w s with
    | (Returned a, s1) => f a w s1
    | (Thrown e, s1) => (Thrown e, s1)
    | (Exited c, s1) => (Exited c, s1)
    end.

Definition throw {A} (e : JsError) : M A := fun _ s => (Thrown e, s).
Definition process_exit {A} (code : Z) : M A := fun _ s => (Exited code, s).
Definition emit (e : Event) : M unit := fun _ s => (Returned tt, s ++ [e]).
Definition ask {A} (f : World -> A) : M A := fun w s => (Returned (f w), s).

Declare Scope js_scope.
Delimit Scope js_scope with js.
Notation "x <- m ;; k" := (bind m (fun x => k))
  (at level 61, m at next level, right associativity) : js_scope.
Notation "m ;; k" := (bind m (fun _ => k))
  (at level 61, right associativity) : js_scope.
Local Open Scope js_scope.

Definition console_log (st : Style) (msg : string) : M unit :=
  emit (Console Stdout st msg).
Definition console_error (st : Style) (msg : string) : M unit :=
  emit (Console Stderr st msg).

(** [got(...)], [got.post(...)], [got.delete(...)]: the request is issued
    and the promise settles with the world's reply. *)
Definition got_request (r : HttpRequest) : M (Reply HttpResponse GotError) :=
  fun w s => (Returned (got w (calls s) r), s ++ [Remote (Http r)]).

(** [p.catch(handler)] with a handler that only logs: a rejection runs the
    handler and the awaited value is [undefined]. *)
Definition catch_log {A} (p : Reply A GotError) (handler : GotError -> M unit)
  : M (option A) :=
  match p with
  | Resolved a => ret (Some a)
  | Rejected err => handler err ;; ret None
  end.

(** [await ec2.op(params).promise()]: the method of the SDK is called,
    which the trace records, and a rejection is thrown, whether it comes
    from the service or from the SDK itself before anything is sent. *)
Definition ec2_request {A} (c : Ec2Call) (reply : World -> nat -> Reply A string)
  : M A :=
  fun w s =>
    match reply w (calls s) with
    | Resolved a => (Returned a, s ++ [Remote (Ec2 c)])
    | Rejected err => (Thrown (AwsError err), s ++ [Remote (Ec2 c)])
    end.

(** Reading a property of [undefined] throws a [TypeError]. *)
Definition prop_of {A} (o : option A) (prop : string) : M A :=
  match o with
  | Some a => ret a
  | None => throw (TypeError ("Cannot read property '" +++ prop +++ "' of undefined"))
  end.

(** [xs[0]] followed by a property access. *)
Definition first_of {A} (xs : list A) (prop : string) : M A :=
  prop_of (hd_error xs) prop.

(** ** The retry loop *)

(** The options object handed to [retry] at the three call sites. *)
Record RetryOpts := {
  retries : nat;
  minTimeout : Z;
  maxTimeout : option Z
}.

(** Modelled from the spec: the pause between two attempts of [retry], which
    the async-retry package computes and [hw0.js] only configures.  Section
    4.2 gives a fixed interval where only [minTimeout] is set (create: 3s)
    and a bounded range where [maxTimeout] is set as well (termination:
    1-3s); [draw] is the value picked inside the range. *)
Definition interval (o : RetryOpts) (draw : Z) : Z :=
  match maxTimeout o with
  | None => minTimeout o
  | Some hi => Z.max (minTimeout o) (Z.min hi draw)
  end.

(** Modelled from the spec: [retry(fn, opts)] of the async-retry package,
    whose code is not part of [hw0.js].  Section 4.2: the retrier is invoked
    repeatedly until it returns or the attempt budget is used up; every
    invocation that throws counts as one attempt; the loop sleeps between
    attempts; after the final failed attempt the caller gets [Exhausted].
    [left] is what remains of the budget, [attempt] numbers the next
    invocation from 1. *)
Fixpoint poll {A} (fn : M A) (o : RetryOpts) (left : nat) (attempt : nat) : M A :=
  match left with
  | O => throw Exhausted
  | S left' =>
      fun w s =>
        match fn w (s ++ [Invoke attempt]) with
        | (Returned a, s1) => (Returned a, s1)
        | (Exited c, s1) => (Exited c, s1)
        | (Thrown _, s1) =>
            match left' with
            | O => (Thrown Exhausted, s1)
            | S _ =>
                poll fn o left' (S attempt) w
                  (s1 ++ [Sleep (interval o (jitter w attempt))])
            end
        end
  end.

(** Modelled from the spec: the attempt budget of a poll loop is the
    [retries] option of its call site (create: 10, termination: 50). *)
Definition max_attempts (o : RetryOpts) : nat := retries o.

Definition retry {A} (fn : M A) (o : RetryOpts) : M A :=
  poll fn o (max_attempts o) 1.

(** ** class DigitalOceanProvider *)

Record DigitalOceanProvider := { headers : Headers }.

(** [constructor(token)] *)
Definition new_DigitalOceanProvider (token : string) : DigitalOceanProvider :=
  {| headers := {| Content_Type := "application/json";
                   Authorization := "Bearer " +++ token |} |}.

Definition keys_url : string := "https://api.digitalocean.com/v2/account/keys".
Definition droplets_url : string := "https://api.digitalocean.com/v2/droplets".

Definition makeRequest (this : DigitalOceanProvider) (u : string)
  : M (option HttpResponse) :=
  p <- got_request {| method := GET; url := u;
                      req_headers := headers this; req_body := None |} ;;
  catch_log p (fun err => console_error plain (u +++ " " +++ show_GotError err)).

Definition findSSHKeyPair (this : DigitalOceanProvider) (name : string) : M Z :=
  resp <- makeRequest this keys_url ;;
  let sshKey :=
    match resp with
    | Some r =>
        match body r with
        | Some b =>
            match ssh_keys b with
            | Some keys => find (fun key => String.eqb (key_name key) name) keys
            | None => None
            end
        | None => None
        end
    | None => None
    end in
  match sshKey with
  | Some key => ret (key_id key)
  | None => throw (Error ("Unable to find SSH key pair: " +++ name))
  end.

Definition dquote : string := String (ascii_of_nat 34) EmptyString.
Definition quoted (s : string) : string := dquote +++ s +++ dquote.
Definition show_bool (b : bool) : string := if b then "true" else "false".

(** [JSON.stringify(data)] for the create request. *)
Definition JSON_stringify (d : DropletData) : string :=
  "{" +++ quoted "name" +++ ":" +++ quoted (data_name d) +++ ","
      +++ quoted "region" +++ ":" +++ quoted (data_region d) +++ ","
      +++ quoted "size" +++ ":" +++ quoted (data_size d) +++ ","
      +++ quoted "image" +++ ":" +++ quoted (data_image d) +++ ","
      +++ quoted "ssh_keys" +++ ":[" +++ String.concat "," (map show_Z (data_ssh_keys d)) +++ "],"
      +++ quoted "backups" +++ ":" +++ show_bool (data_backups d) +++ ","
      +++ quoted "ipv6" +++ ":" +++ show_bool (data_ipv6 d) +++ ","
      +++ quoted "user_data" +++ ":null,"
      +++ quoted "private_networking" +++ ":null}".

Definition createDroplet (this : DigitalOceanProvider)
    (dropletName region imageName sshKeyPairName : string)
  : M (option HttpResponse) :=
  if (dropletName =? "")%string || (region =? "")%string
     || (imageName =? "")%string || (sshKeyPairName =? "")%string
  then
    console_log red "You must provide non-empty parameters for createDroplet!" ;;
    ret None
  else
    sshKeyId <- findSSHKeyPair this sshKeyPairName ;;
    let data := {| data_name := dropletName;
                   data_region := region;
                   data_size := "512mb";
                   data_image := imageName;
                   data_ssh_keys := [sshKeyId];
                   data_backups := false;
                   data_ipv6 := false |} in
    console_log plain ("Attempting to create: " +++ JSON_stringify data) ;;
    p <- got_request {| method := POST; url := droplets_url;
                        req_headers := headers this; req_body := Some data |} ;;
    response <- catch_log p
      (fun err => console_error red ("createDroplet: " +++ show_GotError err)) ;;
    match response with
    | Some r =>
        if statusCode r =? 202 then
          b <- prop_of (body r) "droplet" ;;
          d <- prop_of (droplet b) "id" ;;
          console_log green ("Created droplet id " +++ show_Z (droplet_id d))
        else ret tt
    | None => ret tt
    end ;;
    ret response.

Definition dropletInfo (this : DigitalOceanProvider) (id : JsVal)
  : M (option HttpResponse) :=
  if negb (typeof id =? "number")%string then
    console_log red "You must provide an integer id for your droplet!" ;;
    ret None
  else
    makeRequest this (droplets_url +++ "/" +++ js_toString id).

Definition deleteDroplet (this : DigitalOceanProvider) (id : JsVal) : M unit :=
  if negb (typeof id =? "number")%string then
    console_log red "You must provide an integer id for your droplet!" ;;
    ret tt
  else
    p <- got_request {| method := DELETE;
                        url := droplets_url +++ "/" +++ js_toString id;
                        req_headers := headers this; req_body := None |} ;;
    response <- catch_log p
      (fun err => console_error red ("deleteDroplet: " +++ show_GotError err)) ;;
    match response with
    | None => ret tt
    | Some r =>
        if statusCode r =? 204 then
          console_log plain ("Deleted droplet " +++ js_toString id)
        else ret tt
    end.

(** ** class AWSProvider *)

Definition ec2_run (p : InstanceParams) : M RunInstancesResult :=
  ec2_request (RunInstances p) (fun w n => ec2_runInstances w n p).
Definition ec2_tag (p : TagParams) : M unit :=
  ec2_request (CreateTags p) (fun w n => ec2_createTags w n p).
Definition ec2_describe (p : IdParams) : M DescribeInstancesResult :=
  ec2_request (DescribeInstances p) (fun w n => ec2_describeInstances w n p).
Definition ec2_terminate (p : IdParams) : M TerminateInstancesResult :=
  ec2_request (TerminateInstances p) (fun w n => ec2_terminateInstances w n p).

(** [resp.Reservations[0].Instances[0]] is [undefined] when the first
    reservation lists no instance. *)
Definition instanceInfo (id : JsVal) : M (option Instance) :=
  let params := {| InstanceIds := [id] |} in
  resp <- ec2_describe params ;;
  r0 <- first_of (Reservations resp) "Instances" ;;
  ret (hd_error (Instances r0)).

Definition instanceParams (imageName sshKeyPairName : string) : InstanceParams :=
  {| ImageId := imageName;
     InstanceType := "t2.micro";
     KeyName := sshKeyPairName;
     MinCount := 1;
     MaxCount := 1 |}.

Definition createInstance (name region imageName sshKeyPairName : string)
  : M (option Instance) :=
  resp <- ec2_run (instanceParams imageName sshKeyPairName) ;;
  i0 <- first_of (run_Instances resp) "InstanceId" ;;
  let instanceId := InstanceId i0 in
  let tagParams := {| Resources := [JsStr instanceId];
                      Tags := [{| Key := "Name"; Value := name |}] |} in
  ec2_tag tagParams ;;
  instanceInfo (JsStr instanceId).

Definition terminalStates : list string := ["stopped"; "terminated"].

(** [terminalStates.includes(currentState)] *)
Definition includes (l : list string) (x : string) : bool :=
  existsb (fun y => String.eqb y x) l.

(** The retrier of the termination poll in [deleteInstance]. *)
Definition termination_retrier (params : IdParams) : M string :=
  resp <- ec2_terminate params ;;
  t0 <- first_of (TerminatingInstances resp) "CurrentState" ;;
  let currentState := Name (CurrentState t0) in
  if includes terminalStates currentState then ret currentState
  else throw (Error "Still waiting for termination...").

Definition termination_opts : RetryOpts :=
  {| retries := 50; minTimeout := 1000; maxTimeout := Some 3000 |}.

Definition deleteInstance (id : JsVal) : M TerminateInstancesResult :=
  let params := {| InstanceIds := [id] |} in
  resp <- ec2_terminate params ;;
  console_log plain "Waiting for termination..." ;;
  retry (termination_retrier params) termination_opts ;;
  ret resp.

(** ** Top-level functions *)

(** The body of [if (!token) { ... }]: three messages, then
    [process.exit(1)]. *)
Definition token_missing {A} : M A :=
  console_log red_bold "NCSU_DOTOKEN is not defined!" ;;
  console_log plain "Please set your environment variables with appropriate token." ;;
  console_log italic "You may need to refresh your shell in order for your changes to take place." ;;
  process_exit 1.

(** [!token] holds of [undefined] and of the empty string. *)
Definition validateDigitalOceanToken : M string :=
  token <- ask NCSU_DOTOKEN ;;
  match token with
  | None => token_missing
  | Some t => if (t =? "")%string then token_missing else ret t
  end.

(** [droplet.networks && droplet.networks.v4 && droplet.networks.v4.length > 0] *)
Definition networking_ready (d : Droplet) : bool :=
  match networks d with
  | Some n =>
      match v4 n with
      | Some l => (0 <? length l)%nat
      | None => false
      end
  | None => false
  end.

(** [droplet.networks.v4[0]] *)
Definition first_v4 (d : Droplet) : option NetworkV4 :=
  match networks d with
  | Some n => match v4 n with Some l => hd_error l | None => None end
  | None => None
  end.

(** The retrier of the poll in [provisionDigitalOceanDroplet]. *)
Definition droplet_retrier (client : DigitalOceanProvider) (dropletId : JsVal)
  : M string :=
  resp <- dropletInfo client dropletId ;;
  let not_ready : M string := throw (Error "Droplet networking not ready...") in
  match resp with
  | Some r =>
      b <- prop_of (body r) "droplet" ;;
      match droplet b with
      | Some d =>
          if networking_ready d then
            net <- prop_of (first_v4 d) "ip_address" ;;
            console_log plain ("IP: " +++ ip_address net) ;;
            ret (ip_address net)
          else not_ready
      | None => not_ready
      end
  | None => not_ready
  end.

Definition create_opts : RetryOpts :=
  {| retries := 10; minTimeout := 3000; maxTimeout := None |}.

Definition provisionDigitalOceanDroplet : M unit :=
  token <- validateDigitalOceanToken ;;
  let client := new_DigitalOceanProvider token in
  uuid <- ask uuid_v4 ;;
  let name := "jwmanes2-" +++ uuid in
  let region := "nyc1" in
  let image := "ubuntu-19-10-x64" in
  let sshKeyPairName := "csc519" in
  createDropletResponse <- createDroplet client name region image sshKeyPairName ;;
  match createDropletResponse with
  | Some r =>
      b <- prop_of (body r) "droplet" ;;
      match droplet b with
      | Some d =>
          let dropletId := droplet_id d in
          retry (droplet_retrier client (JsNum dropletId)) create_opts ;;
          ret tt
      | None => ret tt
      end
  | None => ret tt
  end.

Definition destroyDigitalOceanDroplet (id : JsVal) : M unit :=
  token <- validateDigitalOceanToken ;;
  let client := new_DigitalOceanProvider token in
  deleteDroplet client id.

(** [if (info.PublicIpAddress)]: a non-empty string. *)
Definition truthy (s : option string) : bool :=
  match s with
  | Some t => negb (t =? "")%string
  | None => false
  end.

(** The retrier of the poll in [provisionAWSInstance]. *)
Definition instance_retrier (instanceId : JsVal) : M string :=
  resp <- instanceInfo instanceId ;;
  info <- prop_of resp "PublicIpAddress" ;;
  if truthy (PublicIpAddress info) then
    let ip := match PublicIpAddress info with Some a => a | None => "" end in
    console_log plain ("IP: " +++ ip) ;;
    ret ip
  else throw (Error "Instance networking not ready...").

Definition provisionAWSInstance : M unit :=
  console_log plain "Creating AWS instance..." ;;
  uuid <- ask uuid_v4 ;;
  let name := "jwmanes2-" +++ uuid in
  let region := "us-east-1" in
  let image := "ami-0b6b1f8f449568786" in
  let sshKeyPairName := "csc519" in
  resp <- createInstance name region image sshKeyPairName ;;
  instance <- prop_of resp "InstanceId" ;;
  let instanceId := InstanceId instance in
  console_log plain ("Instance ID: " +++ instanceId) ;;
  console_log plain "Waiting for IP address..." ;;
  retry (instance_retrier (JsStr instanceId)) create_opts ;;
  ret tt.

Definition destroyAWSInstance (id : JsVal) : M unit :=
  console_log plain ("Deleting AWS instance " +++ js_toString id) ;;
  deleteInstance id ;;
  ret tt.

(** ** The command surface *)

Inductive Provider := digitalocean | aws.

Inductive Command :=
| create (provider : Provider)
| rm (provider : Provider) (id : JsVal).

Definition hw0 (cmd : Command) : M unit :=
  match cmd with
  | create digitalocean => provisionDigitalOceanDroplet
  | create aws => provisionAWSInstance
  | rm digitalocean id => destroyDigitalOceanDroplet id
  | rm aws id => destroyAWSInstance id
  end.

(** The exit code of the process for a finished run: [process.exit(n)]
    gives [n]. *)
Definition exit_code {A} (r : Outcome A * Trace) : option Z :=
  match fst r with
  | Exited c => Some c
  | _ => None
  end.

(** ** The earlier script

    The first version of the script checks the token when the module is
    loaded, before any command is dispatched.  [rest] stands for the
    remainder of that script (its class, its handlers and the command
    dispatch), run with the token. *)
Module Part000.

Definition script (rest : string -> M unit) : M unit :=
  token <- ask NCSU_DOTOKEN ;;
  match token with
  | None => token_missing
  | Some t =>
      if (t =? "")%string then token_missing
      else
        console_log green ("Your token is: " +++ substring 0 4 t +++ "...") ;;
        rest t
  end.

End Part000.

(** * Vocabulary of the properties *)

(** ** Poll runs *)

(** Events issued by a retrier itself: neither an invocation mark nor a
    pause of the loop. *)
Definition quiet (evs : Trace) : Prop :=
  Forall (fun e => is_invoke e = false /\ is_sleep e = false) evs.

(** The events of [k] successive attempts, the first numbered [a]: each
    attempt is an invocation followed by the retrier's own events, among
    them the single remote call [c], and exactly one pause separates two
    consecutive attempts. *)
Inductive attempts_trace (o : RetryOpts) (w : World) (c : RemoteCall)
  : nat -> nat -> Trace -> Prop :=
| attempts_last (a : nat) (evs : Trace) :
    quiet evs -> filter is_remote evs = [Remote c] ->
    attempts_trace o w c a 1 (Invoke a :: evs)
| attempts_more (a k : nat) (evs rest : Trace) :
    quiet evs -> filter is_remote evs = [Remote c] ->
    attempts_trace o w c (S a) k rest ->
    attempts_trace o w c a (S k)
      (Invoke a :: evs ++ Sleep (interval o (jitter w a)) :: rest).

(** What an attempt yields: [Some v] when the retrier returns [v], [None]
    when it throws. *)
Definition settles {A} (r : Outcome A) (v : option A) : Prop :=
  match v with
  | Some a => r = Returned a
  | None => exists e, r = Thrown e
  end.

(** A retrier is a probe when each run issues the remote call [c] once and
    nothing else remotely, and its outcome is decided by the reply to that
    call, the [n]-th of the process. *)
Record probe {A} (fn : M A) (w : World) (c : RemoteCall)
    (verdict : nat -> option A) : Prop := {
  probe_outcome : forall s, settles (fst (fn w s)) (verdict (calls s));
  probe_events : forall s, exists evs,
      snd (fn w s) = s ++ evs /\ filter is_remote evs = [Remote c] /\ quiet evs
}.

(** ** The three poll loops of [hw0.js] *)

Inductive PollLoop :=
| DropletPoll (client : DigitalOceanProvider) (dropletId : Z)
| InstancePoll (instanceId : JsVal)
| TerminationPoll (params : IdParams).

Definition loop_retrier (L : PollLoop) : M string :=
  match L with
  | DropletPoll client dropletId => droplet_retrier client (JsNum dropletId)
  | InstancePoll instanceId => instance_retrier instanceId
  | TerminationPoll params => termination_retrier params
  end.

Definition loop_opts (L : PollLoop) : RetryOpts :=
  match L with
  | DropletPoll _ _ => create_opts
  | InstancePoll _ => create_opts
  | TerminationPoll _ => termination_opts
  end.

Definition run_poll (L : PollLoop) : M string :=
  retry (loop_retrier L) (loop_opts L).

(** The request of the droplet probe. *)
Definition droplet_request (client : DigitalOceanProvider) (dropletId : Z)
  : HttpRequest :=
  {| method := GET; url := droplets_url +++ "/" +++ show_Z dropletId;
     req_headers := headers client; req_body := None |}.

(** The remote call a loop's probe issues on every attempt. *)
Definition loop_call (L : PollLoop) : RemoteCall :=
  match L with
  | DropletPoll client dropletId => Http (droplet_request client dropletId)
  | InstancePoll instanceId => Ec2 (DescribeInstances {| InstanceIds := [instanceId] |})
  | TerminationPoll params => Ec2 (TerminateInstances params)
  end.

(** Readiness of one reply, for each loop: the value the retrier returns
    on it, or [None] when the retrier throws on it. *)
Definition droplet_ready (p : Reply HttpResponse GotError) : option string :=
  match p with
  | Resolved r =>
      match body r with
      | Some b =>
          match droplet b with
          | Some d =>
              if networking_ready d then option_map ip_address (first_v4 d)
              else None
          | None => None
          end
      | None => None
      end
  | Rejected _ => None
  end.

Definition instance_ready (p : Reply DescribeInstancesResult string)
  : option string :=
  match p with
  | Resolved resp =>
      match Reservations resp with
      | r0 :: _ =>
          match Instances r0 with
          | info :: _ =>
              if truthy (PublicIpAddress info) then PublicIpAddress info
              else None
          | [] => None
          end
      | [] => None
      end
  | Rejected _ => None
  end.

Definition termination_ready (p : Reply TerminateInstancesResult string)
  : option string :=
  match p with
  | Resolved resp =>
      match TerminatingInstances resp with
      | t0 :: _ =>
          if includes terminalStates (Name (CurrentState t0))
          then Some (Name (CurrentState t0))
          else None
      | [] => None
      end
  | Rejected _ => None
  end.

(** The probe sequence of a loop in a world: readiness of the reply to the
    [n]-th remote call of the process, were the probe to issue it. *)
Definition probe_sequence (L : PollLoop) (w : World) (n : nat) : option string :=
  match L with
  | DropletPoll client dropletId =>
      droplet_ready (got w n (droplet_request client dropletId))
  | InstancePoll instanceId =>
      instance_ready (ec2_describeInstances w n {| InstanceIds := [instanceId] |})
  | TerminationPoll params =>
      termination_ready (ec2_terminateInstances w n params)
  end.

(** ** The parameter check of the EC2 SDK *)

(** Modelled from the spec: the check the EC2 SDK makes on the parameters
    of a call before it sends anything, which is code of the SDK and not of
    [hw0.js].  Sections 4.1 and 8 have [describe] and [delete] reject an AWS
    id that is not a string with a validation error and without a remote
    call; [hw0.js] hands the id to the SDK unchecked, so the check is the
    SDK's.  A call is refused when a member of its [InstanceIds] is not a
    string. *)
Definition sdk_refuses (c : Ec2Call) : bool :=
  match c with
  | DescribeInstances p | TerminateInstances p =>
      negb (forallb (fun id => (typeof id =? "string")%string) (InstanceIds p))
  | _ => false
  end.

(** Modelled from the spec: the error with which the SDK rejects a call it
    refuses. *)
Definition sdk_validation_error : string := "InvalidParameterType".



(** ** A stub world

    The scenario of the specification: the account has the key [csc519],
    the create request is accepted with droplet id 555, the first two
    describe calls show no network and the third shows 203.0.113.5. *)

Definition stub_droplet (nets : list NetworkV4) : HttpResponse :=
  {| statusCode := 200;
     body := Some {| ssh_keys := None;
                     droplet := Some {| droplet_id := 555;
                                        networks := Some {| v4 := Some nets |} |} |} |}.

Definition stub_got (n : nat) (r : HttpRequest) : Reply HttpResponse GotError :=
  match method r with
  | GET =>
      if (url r =? keys_url)%string then
        Resolved {| statusCode := 200;
                    body := Some {| ssh_keys := Some [{| key_id := 42; key_name := "other" |};
                                                      {| key_id := 77; key_name := "csc519" |}];
                                    droplet := None |} |}
      else if (n <? 4)%nat then Resolved (stub_droplet [])
      else Resolved (stub_droplet [{| ip_address := "203.0.113.5"; type := "public" |}])
  | POST =>
      Resolved {| statusCode := 202;
                  body := Some {| ssh_keys := None;
                                  droplet := Some {| droplet_id := 555;
                                                     networks := None |} |} |}
  | DELETE =>
      if (url r =? droplets_url +++ "/555")%string
      then Resolved {| statusCode := 204; body := None |}
      else Rejected (HTTPError 404)
  end.

Definition stub_instance (ip : option string) : Instance :=
  {| InstanceId := "i-0abc"; PublicIpAddress := ip |}.

Definition stub_world : World :=
  {| NCSU_DOTOKEN := Some "dop_v1_token";
     uuid_v4 := "1b9d6bcd-bbfd-4b2d-9b5d-ab8dfbbd4bed";
     got := stub_got;
     ec2_runInstances := fun _ _ => Resolved {| run_Instances := [stub_instance None] |};
     ec2_createTags := fun _ _ => Resolved tt;
     ec2_describeInstances := fun n p =>
       if sdk_refuses (DescribeInstances p) then Rejected sdk_validation_error
       else
         Resolved {| Reservations :=
                       [{| Instances :=
                             [stub_instance (if (n <? 4)%nat then None
                                             else Some "198.51.100.7")] |}] |};
     ec2_terminateInstances := fun n p =>
       if sdk_refuses (TerminateInstances p) then Rejected sdk_validation_error
       else
         Resolved {| TerminatingInstances :=
                       [{| CurrentState :=
                             {| Name := if (n <? 2)%nat then "shutting-down"
                                        else "terminated" |} |}] |};
     jitter := fun a => 500 + 1000 * Z.of_nat a |}.

Definition stub_client : DigitalOceanProvider := new_DigitalOceanProvider "dop_v1_token".

(** The same world without the token. *)
Definition no_token_world : World :=
  {| NCSU_DOTOKEN := None;
     uuid_v4 := uuid_v4 stub_world;
     got := got stub_world;
     ec2_runInstances := ec2_runInstances stub_world;
     ec2_createTags := ec2_createTags stub_world;
     ec2_describeInstances := ec2_describeInstances stub_world;
     ec2_terminateInstances := ec2_terminateInstances stub_world;
     jitter := jitter stub_world |}.

(** A state in which two remote calls have been issued already. *)
Definition two_calls : Trace :=
  [Remote (Ec2 (CreateTags {| Resources := []; Tags := [] |}));
   Remote (Ec2 (CreateTags {| Resources := []; Tags := [] |}))].

(** ** Parameter validation *)

Definition some_empty (name region image key : string) : Prop :=
  name = "" \/ region = "" \/ image = "" \/ key = "".

(** A [ValidationError] as section 7 of the specification has it: the bad
    parameter is reported in red on standard output, the operation is
    aborted (the method returns at once) and nothing else happens; [s] is
    the trace before the call. *)
Definition signals_ValidationError {A} (r : Outcome A * Trace) (s : Trace) : Prop :=
  exists a msg, r = (Returned a, s ++ [Console Stdout red msg]).

(** [create] of a provider client rejects an empty parameter without any
    remote call. *)
Definition create_rejects_empty (p : Provider) : Prop :=
  forall (client : DigitalOceanProvider) (name region image key : string)
         (w : World) (s : Trace),
    some_empty name region image key ->
    match p with
    | digitalocean =>
        let r := createDroplet client name region image key w s in
        signals_ValidationError r s /\ calls (snd r) = calls s
    | aws =>
        let r := createInstance name region image key w s in
        signals_ValidationError r s /\ calls (snd r) = calls s
    end.


(** ** Commands and the token *)

Definition provider_of (cmd : Command) : Provider :=
  match cmd with
  | create p => p
  | rm p _ => p
  end.

(** [NCSU_DOTOKEN] is absent or empty. *)
Definition token_absent (w : World) : Prop :=
  NCSU_DOTOKEN w = None \/ NCSU_DOTOKEN w = Some "".

Definition missing_token_messages : Trace :=
  [Console Stdout red_bold "NCSU_DOTOKEN is not defined!";
   Console Stdout plain "Please set your environment variables with appropriate token.";
   Console Stdout italic
     "You may need to refresh your shell in order for your changes to take place."].

(** ** Requests of the DigitalOcean client *)

Definition keys_request (client : DigitalOceanProvider) : HttpRequest :=
  {| method := GET; url := keys_url;
     req_headers := headers client; req_body := None |}.

Definition delete_request (client : DigitalOceanProvider) (dropletId : Z)
  : HttpRequest :=
  {| method := DELETE; url := droplets_url +++ "/" +++ show_Z dropletId;
     req_headers := headers client; req_body := None |}.

(** A droplet-create request: [POST /v2/droplets]. *)
Definition is_create_request (e : Event) : bool :=
  match e with
  | Remote (Http r) =>
      match method r with
      | POST => (url r =? droplets_url)%string
      | _ => false
      end
  | _ => false
  end.

(** The key list of the account, as the reply to the keys request shows
    it; no reply, no body or no list is an empty list. *)
Definition account_keys (p : Reply HttpResponse GotError) : list SSHKey :=
  match p with
  | Resolved r =>
      match body r with
      | Some b => match ssh_keys b with Some keys => keys | None => [] end
      | None => []
      end
  | Rejected _ => []
  end.

(** ** Pauses *)

(** The durations of the pauses of a trace, in order. *)
Definition sleeps (tr : Trace) : list Z :=
  flat_map (fun e => match e with Sleep d => [d] | _ => [] end) tr.

(** The interval each loop is meant to keep, in milliseconds. *)
Definition sleep_bound (L : PollLoop) (d : Z) : Prop :=
  match L with
  | TerminationPoll _ => 1000 <= d <= 3000
  | _ => d = 3000
  end.

(** ** Descriptors *)

(** What a create-readiness probe gets back: a droplet or an instance. *)
Inductive Descriptor :=
| DropletDescriptor (d : Droplet)
| InstanceDescriptor (i : Instance).

(** The readiness test of the two create retriers. *)
Definition ready (desc : Descriptor) : bool :=
  match desc with
  | DropletDescriptor d => networking_ready d
  | InstanceDescriptor i => truthy (PublicIpAddress i)
  end.

(** The entries of [networks.v4] of a droplet, when there are networks
    and a list. *)
Definition v4_entries (d : Droplet) : list NetworkV4 :=
  match networks d with
  | Some n =>
      match v4 n with
      | Some entries => entries
      | None => []
      end
  | None => []
  end.

Definition is_public (net : NetworkV4) : bool := (type net =? "public")%string.

(** The IPv4 addresses a descriptor carries, of any kind: for a droplet
    the addresses of all entries of [networks.v4], public or private; for
    an instance its [PublicIpAddress], when it is there and not the empty
    string. *)
Definition ipv4 (desc : Descriptor) : list string :=
  match desc with
  | DropletDescriptor d => map ip_address (v4_entries d)
  | InstanceDescriptor i =>
      match PublicIpAddress i with
      | Some ip => if (ip =? "")%string then [] else [ip]
      | None => []
      end
  end.

(** The public IPv4 addresses a descriptor carries: for a droplet the
    addresses of the entries of [networks.v4] whose type is public; for an
    instance its [PublicIpAddress]. *)
Definition public_ipv4 (desc : Descriptor) : list string :=
  match desc with
  | DropletDescriptor d => map ip_address (filter is_public (v4_entries d))
  | InstanceDescriptor i => ipv4 (InstanceDescriptor i)
  end.

Definition carries_address (desc : Descriptor) : Prop := public_ipv4 desc <> [].

(** The descriptor in the reply to the [n]-th remote call, if that reply
    holds one. *)
Definition probed_descriptor (L : PollLoop) (w : World) (n : nat)
  : option Descriptor :=
  match L with
  | DropletPoll client dropletId =>
      match got w n (droplet_request client dropletId) with
      | Resolved r =>
          match body r with
          | Some b => option_map DropletDescriptor (droplet b)
          | None => None
          end
      | Rejected _ => None
      end
  | InstancePoll instanceId =>
      match ec2_describeInstances w n {| InstanceIds := [instanceId] |} with
      | Resolved resp =>
          match Reservations resp with
          | r0 :: _ => option_map InstanceDescriptor (hd_error (Instances r0))
          | [] => None
          end
      | Rejected _ => None
      end
  | TerminationPoll _ => None
  end.

Definition is_create_poll (L : PollLoop) : bool :=
  match L with
  | TerminationPoll _ => false
  | _ => true
  end.

(** ** Calls of a trace *)

(** The remote calls of a trace, in order. *)
Definition remote_calls (tr : Trace) : list RemoteCall :=
  flat_map (fun e => match e with Remote c => [c] | _ => [] end) tr.



(** An HTTP request that carries the headers of [client]. *)
Definition by_client (client : DigitalOceanProvider) (c : RemoteCall) : Prop :=
  exists r, c = Http r /\ req_headers r = headers client.

Definition is_ec2 (c : RemoteCall) : bool :=
  match c with
  | Ec2 _ => true
  | Http _ => false
  end.

(** [data] of [createDroplet] once the key id is known. *)
Definition droplet_data (dropletName region imageName : string) (sshKeyId : Z)
  : DropletData :=
  {| data_name := dropletName;
     data_region := region;
     data_size := "512mb";
     data_image := imageName;
     data_ssh_keys := [sshKeyId];
     data_backups := false;
     data_ipv6 := false |}.

Definition post_request (client : DigitalOceanProvider) (data : DropletData)
  : HttpRequest :=
  {| method := POST; url := droplets_url;
     req_headers := headers client; req_body := Some data |}.

(** [tagParams] of [createInstance]. *)
Definition name_tag (instanceId name : string) : TagParams :=
  {| Resources := [JsStr instanceId];
     Tags := [{| Key := "Name"; Value := name |}] |}.

(** The world [w] with another value of [NCSU_DOTOKEN]. *)
Definition with_token (t : option string) (w : World) : World :=
  {| NCSU_DOTOKEN := t;
     uuid_v4 := uuid_v4 w;
     got := got w;
     ec2_runInstances := ec2_runInstances w;
     ec2_createTags := ec2_createTags w;
     ec2_describeInstances := ec2_describeInstances w;
     ec2_terminateInstances := ec2_terminateInstances w;
     jitter := jitter w |}.

(** A stub whose create request is refused. *)
Definition refusing_world : World :=
  {| NCSU_DOTOKEN := NCSU_DOTOKEN stub_world;
     uuid_v4 := uuid_v4 stub_world;
     got := fun n r =>
              match method r with
              | POST => Rejected (HTTPError 422)
              | _ => got stub_world n r
              end;
     ec2_runInstances := ec2_runInstances stub_world;
     ec2_createTags := fun _ _ => Rejected "UnauthorizedOperation";
     ec2_describeInstances := ec2_describeInstances stub_world;
     ec2_terminateInstances := fun _ _ => Rejected "InvalidInstanceID.NotFound";
     jitter := jitter stub_world |}.

(** A stub whose create request is accepted with status 202 but answered
    without a droplet in the body. *)
Definition accepting_without_droplet : World :=
  {| NCSU_DOTOKEN := NCSU_DOTOKEN stub_world;
     uuid_v4 := uuid_v4 stub_world;
     got := fun n r =>
              match method r with
              | POST => Resolved {| statusCode := 202;
                                    body := Some {| ssh_keys := None;
                                                    droplet := None |} |}
              | _ => got stub_world n r
              end;
     ec2_runInstances := ec2_runInstances stub_world;
     ec2_createTags := ec2_createTags stub_world;
     ec2_describeInstances := ec2_describeInstances stub_world;
     ec2_terminateInstances := ec2_terminateInstances stub_world;
     jitter := jitter stub_world |}.

(** The parameters [provisionDigitalOceanDroplet] creates its droplet
    with, given the key id. *)
Definition provision_data (w : World) (sshKeyId : Z) : DropletData :=
  droplet_data ("jwmanes2-" +++ uuid_v4 w) "nyc1" "ubuntu-19-10-x64" sshKeyId.

(** A stub in which the DigitalOcean service cannot be reached. *)
Definition unreachable_world : World :=
  {| NCSU_DOTOKEN := NCSU_DOTOKEN stub_world;
     uuid_v4 := uuid_v4 stub_world;
     got := fun _ _ => Rejected (RequestError "connect ETIMEDOUT");
     ec2_runInstances := ec2_runInstances stub_world;
     ec2_createTags := ec2_createTags stub_world;
     ec2_describeInstances := ec2_describeInstances stub_world;
     ec2_terminateInstances := ec2_terminateInstances stub_world;
     jitter := jitter stub_world |}.

(** A droplet whose only address is a private one, and a stub in which
    every describe request shows it. *)
Definition private_droplet : Droplet :=
  {| droplet_id := 555;
     networks := Some {| v4 := Some [{| ip_address := "10.132.0.2";
                                        type := "private" |}] |} |}.

Definition private_world : World :=
  {| NCSU_DOTOKEN := NCSU_DOTOKEN stub_world;
     uuid_v4 := uuid_v4 stub_world;
     got := fun _ _ =>
              Resolved {| statusCode := 200;
                          body := Some {| ssh_keys := None;
                                          droplet := Some private_droplet |} |};
     ec2_runInstances := ec2_runInstances stub_world;
     ec2_createTags := ec2_createTags stub_world;
     ec2_describeInstances := ec2_describeInstances stub_world;
     ec2_terminateInstances := ec2_terminateInstances stub_world;
     jitter := jitter stub_world |}.

(** Reduce the counters of a trace built by appending events. *)
Ltac counts :=
  unfold calls, invocations, count in *;
  rewrite ?filter_app, ?length_app in *;
  cbn [filter length is_remote is_invoke is_sleep app] in *.

Ltac quiet_events :=
  repeat (apply Forall_cons; [split; reflexivity|]); apply Forall_nil.

(** Unfold the monad in a goal. *)
Ltac monad :=
  cbv beta iota zeta delta
    [bind ret throw emit ask process_exit console_log console_error
     prop_of first_of catch_log got_request ec2_request
     ec2_run ec2_tag ec2_describe ec2_terminate fst snd].

Ltac solve_events :=
  eexists; split;
  [rewrite <- ?app_assoc; reflexivity | split; [reflexivity | quiet_events]].

(** * Properties *)

(** ** Counting events *)

Lemma count_app (p : Event -> bool) (a b : Trace) :
  count p (a ++ b) = (count p a + count p b)%nat.
Proof. unfold count. now rewrite filter_app, length_app. Qed.

Lemma calls_snoc_invoke (s : Trace) (a : nat) :
  calls (s ++ [Invoke a]) = calls s.
Proof. counts. lia. Qed.

Lemma quiet_invocations (evs : Trace) : quiet evs -> invocations evs = 0%nat.
Proof.
  induction 1 as [|e evs [Hi _] _ IH]; [reflexivity|].
  unfold invocations, count in *. simpl. now rewrite Hi.
Qed.

Lemma attempts_trace_invocations o w c a k tr :
  attempts_trace o w c a k tr -> invocations tr = k.
Proof.
  induction 1 as [a evs Hq _ | a k evs rest Hq _ _ IH].
  - apply quiet_invocations in Hq.
    change (Invoke a :: evs) with ([Invoke a] ++ evs).
    counts. lia.
  - apply quiet_invocations in Hq.
    change (Invoke a :: evs ++ Sleep (interval o (jitter w a)) :: rest)
      with ([Invoke a] ++ evs ++ [Sleep (interval o (jitter w a))] ++ rest).
    counts. lia.
Qed.

(** The remote calls of [k] attempts are [k] copies of the probe's call. *)
Lemma attempts_trace_remote o w c a k tr :
  attempts_trace o w c a k tr -> filter is_remote tr = repeat (Remote c) k.
Proof.
  induction 1 as [a evs _ Hr | a k evs rest _ Hr _ IH].
  - cbn [filter is_remote]. now rewrite Hr.
  - cbn [filter is_remote]. rewrite filter_app, Hr.
    cbn [filter is_remote app]. now rewrite IH.
Qed.

Lemma attempts_trace_calls o w c a k tr :
  attempts_trace o w c a k tr -> calls tr = k.
Proof.
  intros H. unfold calls, count.
  now rewrite (attempts_trace_remote _ _ _ _ _ _ H), repeat_length.
Qed.

Section Poll.
Context {A : Type}.
Variables (fn : M A) (o : RetryOpts) (w : World) (c : RemoteCall).
Variable verdict : nat -> option A.
Hypothesis fn_probe : probe fn w c verdict.

(** One run of the loop with [left >= 1] attempts in its budget: it makes
    [k] attempts, all but the last of which fail, and either the [k]-th
    returns or the budget is used up. *)
Lemma poll_run :
  forall (left a : nat) (s : Trace), (1 <= left)%nat ->
  exists (k : nat) (added : Trace),
    (1 <= k <= left)%nat /\
    snd (poll fn o left a w s) = s ++ added /\
    attempts_trace o w c a k added /\
    (forall i, (i < k - 1)%nat -> verdict (calls s + i) = None) /\
    ((exists v, verdict (calls s + (k - 1)) = Some v /\
                fst (poll fn o left a w s) = Returned v)
     \/ (k = left /\ verdict (calls s + (k - 1)) = None /\
         fst (poll fn o left a w s) = Thrown Exhausted)).
Proof.
  induction left as [|left' IH]; intros a s Hleft; [lia|].
  destruct (probe_events _ _ _ _ fn_probe (s ++ [Invoke a]))
    as (evs & Hsnd & Hremote & Hq).
  pose proof (probe_outcome _ _ _ _ fn_probe (s ++ [Invoke a])) as Hout.
  rewrite calls_snoc_invoke in Hout.
  simpl poll.
  destruct (fn w (s ++ [Invoke a])) as [r s1] eqn:Hrun.
  simpl in Hsnd, Hout. subst s1.
  destruct (verdict (calls s)) as [v|] eqn:Hv; simpl in Hout.
  - (* the first attempt returns *)
    subst r. exists 1%nat, (Invoke a :: evs). simpl.
    split; [lia|]. split; [now rewrite <- app_assoc|].
    split; [now constructor|].
    split; [intros i Hi; lia|].
    left. exists v. now rewrite Nat.add_0_r.
  - destruct Hout as [e ->].
    destruct left' as [|left''].
    + (* the budget is used up *)
      exists 1%nat, (Invoke a :: evs). simpl.
      split; [lia|]. split; [now rewrite <- app_assoc|].
      split; [now constructor|].
      split; [intros i Hi; lia|].
      right. now rewrite Nat.add_0_r.
    + (* pause, then go on with the rest of the budget *)
      set (s2 := ((s ++ [Invoke a]) ++ evs) ++ [Sleep (interval o (jitter w a))]).
      destruct (IH (S a) s2 ltac:(lia))
        as (k & added & Hk & Hs & Htr & Hnone & Hres).
      assert (Hcs2 : calls s2 = S (calls s)).
      { unfold s2, calls, count. rewrite !filter_app, Hremote.
        cbn [filter is_remote]. rewrite !length_app. simpl. lia. }
      exists (S k), (Invoke a :: evs ++ Sleep (interval o (jitter w a)) :: added).
      split; [lia|].
      split; [rewrite Hs; unfold s2; now rewrite <- !app_assoc|].
      split; [now constructor|].
      split.
      { intros i Hi. destruct i as [|i]; [now rewrite Nat.add_0_r|].
        replace (calls s + S i)%nat with (calls s2 + i)%nat by lia.
        apply Hnone. lia. }
      replace (calls s + (S k - 1))%nat with (calls s2 + (k - 1))%nat by lia.
      destruct Hres as [(v & Hv' & Hr) | (Hk' & Hv' & Hr)].
      * left. exists v. split; assumption.
      * right. repeat split; [lia | assumption | assumption].
Qed.
End Poll.

(** ** The retriers of [hw0.js] are probes *)

Lemma networking_ready_first_v4 (d : Droplet) :
  networking_ready d = true -> exists net, first_v4 d = Some net.
Proof.
  unfold networking_ready, first_v4.
  destruct (networks d) as [n|]; [|discriminate].
  destruct (v4 n) as [[|net l]|]; try discriminate.
  intros _. now exists net.
Qed.

Lemma droplet_retrier_probe client dropletId w :
  probe (droplet_retrier client (JsNum dropletId)) w
        (loop_call (DropletPoll client dropletId))
        (probe_sequence (DropletPoll client dropletId) w).
Proof.
  split; intros s;
    unfold droplet_retrier, dropletInfo, makeRequest;
    cbn [typeof js_toString probe_sequence loop_call];
    change (negb ("number" =? "number")%string) with false;
    monad; fold (droplet_request client dropletId); unfold droplet_ready;
    (destruct (got w (calls s) (droplet_request client dropletId)) as [r|err]; monad;
     [destruct (body r) as [b|]; monad;
      [destruct (droplet b) as [d|]; monad;
       [destruct (networking_ready d) eqn:Hready; monad;
        [destruct (networking_ready_first_v4 d Hready) as [net ->]; monad | ] | ] | ] | ]).
  all: cbn [settles option_map]; eauto.
  all: solve_events.
Qed.

Lemma instance_retrier_probe instanceId w :
  probe (instance_retrier instanceId) w
        (loop_call (InstancePoll instanceId))
        (probe_sequence (InstancePoll instanceId) w).
Proof.
  split; intros s;
    unfold instance_retrier, instanceInfo;
    cbn [probe_sequence loop_call]; monad; unfold instance_ready;
    (destruct (ec2_describeInstances w (calls s) {| InstanceIds := [instanceId] |})
       as [resp|err]; monad;
     [destruct (Reservations resp) as [|r0 rs]; cbn [hd_error]; monad;
      [|destruct (Instances r0) as [|info others]; cbn [hd_error]; monad;
        [|destruct (truthy (PublicIpAddress info)) eqn:Hip; monad;
          [unfold truthy in Hip; destruct (PublicIpAddress info) as [ip|];
           [|discriminate]|]]]|]).
  all: cbn [settles]; eauto.
  all: solve_events.
Qed.

Lemma termination_retrier_probe params w :
  probe (termination_retrier params) w
        (loop_call (TerminationPoll params))
        (probe_sequence (TerminationPoll params) w).
Proof.
  split; intros s;
    unfold termination_retrier;
    cbn [probe_sequence loop_call]; monad; unfold termination_ready;
    (destruct (ec2_terminateInstances w (calls s) params) as [resp|err]; monad;
     [destruct (TerminatingInstances resp) as [|t0 ts]; cbn [hd_error]; monad;
      [|destruct (includes terminalStates (Name (CurrentState t0))); monad]|]).
  all: cbn [settles]; eauto.
  all: solve_events.
Qed.

Lemma loop_retrier_probe (L : PollLoop) (w : World) :
  probe (loop_retrier L) w (loop_call L) (probe_sequence L w).
Proof.
  destruct L; cbn [loop_retrier].
  - apply droplet_retrier_probe.
  - apply instance_retrier_probe.
  - apply termination_retrier_probe.
Qed.

Lemma loop_budget_positive (L : PollLoop) : (1 <= max_attempts (loop_opts L))%nat.
Proof. destruct L; cbn; lia. Qed.

(** Every run of one of the three loops, from any state. *)
Lemma run_poll_shape (L : PollLoop) (w : World) (s : Trace) :
  exists (k : nat) (added : Trace),
    (1 <= k <= max_attempts (loop_opts L))%nat /\
    snd (run_poll L w s) = s ++ added /\
    attempts_trace (loop_opts L) w (loop_call L) 1 k added /\
    (forall i, (i < k - 1)%nat -> probe_sequence L w (calls s + i) = None) /\
    ((exists v, probe_sequence L w (calls s + (k - 1)) = Some v /\
                fst (run_poll L w s) = Returned v)
     \/ (k = max_attempts (loop_opts L) /\
         probe_sequence L w (calls s + (k - 1)) = None /\
         fst (run_poll L w s) = Thrown Exhausted)).
Proof.
  unfold run_poll, retry.
  apply poll_run; [apply loop_retrier_probe | apply loop_budget_positive].
Qed.

Lemma run_poll_eq (L : PollLoop) (w : World) (s s' : Trace) (r : Outcome string) :
  fst (run_poll L w s) = r -> snd (run_poll L w s) = s' ->
  run_poll L w s = (r, s').
Proof. destruct (run_poll L w s); simpl; congruence. Qed.

Lemma invocations_added o w c (s added : Trace) (k : nat) :
  attempts_trace o w c 1 k added ->
  invocations (s ++ added) = (invocations s + k)%nat.
Proof.
  intros H. apply attempts_trace_invocations in H.
  unfold invocations in *. now rewrite count_app, H.
Qed.

Lemma calls_added o w c (s added : Trace) (k : nat) :
  attempts_trace o w c 1 k added ->
  calls (s ++ added) = (calls s + k)%nat.
Proof.
  intros H. apply attempts_trace_calls in H.
  unfold calls in *. now rewrite count_app, H.
Qed.

(** The scenario end to end: key lookup, create, three probes. *)
Example provision_scenario :
  let r := provisionDigitalOceanDroplet stub_world [] in
  fst r = Returned tt /\
  calls (snd r) = 5%nat /\
  invocations (snd r) = 3%nat /\
  In (Console Stdout plain "IP: 203.0.113.5") (snd r).
Proof. vm_compute. repeat split; auto 20. Qed.

(** Deleting droplet 555 against a stub that answers 204: one request,
    one message, no error. *)
Example delete_scenario :
  hw0 (rm digitalocean (JsNum 555)) stub_world []
  = (Returned tt,
     [Remote (Http (delete_request stub_client 555));
      Console Stdout plain "Deleted droplet 555"]).
Proof. reflexivity. Qed.

(** Terminating an instance that is reported terminated on the third
    call: the first call, then two attempts of the loop. *)
Example terminate_scenario :
  let r := hw0 (rm aws (JsStr "i-0abc")) stub_world [] in
  fst r = Returned tt /\ calls (snd r) = 3%nat /\ invocations (snd r) = 2%nat.
Proof. vm_compute. repeat split. Qed.

(** ** Poll-Until-Ready *)

(** C1.  For each of the three poll loops (droplet create-readiness,
    instance create-readiness, instance termination), with an attempt
    budget of 10 for the create loops and 50 for termination: if the probe
    sequence is first ready on attempt [k] within the budget, the loop
    invokes the retrier exactly [k] times (issuing [k] remote calls) and
    returns the ready value; if no probe of the sequence is ready, the loop
    invokes the retrier exactly budget-many times and ends in the
    [Exhausted] error. *)
Theorem poll_until_ready_attempts (L : PollLoop) (w : World) (s : Trace) :
  max_attempts (loop_opts L)
    = match L with TerminationPoll _ => 50%nat | _ => 10%nat end /\
  (forall (k : nat) (v : string),
      (1 <= k <= max_attempts (loop_opts L))%nat ->
      (forall i, (i < k - 1)%nat -> probe_sequence L w (calls s + i) = None) ->
      probe_sequence L w (calls s + (k - 1)) = Some v ->
      exists s', run_poll L w s = (Returned v, s') /\
                 invocations s' = (invocations s + k)%nat /\
                 calls s' = (calls s + k)%nat) /\
  ((forall i, (i < max_attempts (loop_opts L))%nat ->
              probe_sequence L w (calls s + i) = None) ->
   exists s', run_poll L w s = (Thrown Exhausted, s') /\
              invocations s' = (invocations s + max_attempts (loop_opts L))%nat /\
              calls s' = (calls s + max_attempts (loop_opts L))%nat).
Proof.
  split; [destruct L; reflexivity|].
  destruct (run_poll_shape L w s)
    as (k' & added & Hk' & Hs & Htr & Hnone & Hres).
  split.
  - intros k v Hk Hbefore Hready.
    destruct Hres as [(v' & Hv' & Hr) | (Hlast & Hv' & Hr)].
    + assert (k' = k).
      { destruct (Nat.lt_trichotomy k' k) as [Hlt | [Heq | Hgt]]; [|exact Heq|].
        - rewrite (Hbefore (k' - 1)%nat) in Hv' by lia. discriminate.
        - rewrite (Hnone (k - 1)%nat) in Hready by lia. discriminate. }
      subst k'. assert (v' = v) by congruence. subst v'.
      exists (s ++ added). split; [now apply run_poll_eq|].
      split; [now apply invocations_added with (1 := Htr)
             | now apply calls_added with (1 := Htr)].
    + exfalso.
      destruct (Nat.eq_dec k k') as [-> | Hne]; [congruence|].
      rewrite (Hnone (k - 1)%nat) in Hready by lia. discriminate.
  - intros Hnever.
    destruct Hres as [(v' & Hv' & Hr) | (Hlast & Hv' & Hr)].
    + rewrite Hnever in Hv' by lia. discriminate.
    + subst k'. exists (s ++ added). split; [now apply run_poll_eq|].
      split; [now apply invocations_added with (1 := Htr)
             | now apply calls_added with (1 := Htr)].
Qed.

Lemma poll_until_ready_attempts_witness :
  exists s',
    run_poll (DropletPoll stub_client 555) stub_world two_calls
    = (Returned "203.0.113.5", s') /\
    invocations s' = 3%nat /\ calls s' = 5%nat.
Proof.
  refine (proj1 (proj2 (poll_until_ready_attempts
                          (DropletPoll stub_client 555) stub_world two_calls))
                 3%nat "203.0.113.5" _ _ _).
  - cbn. lia.
  - intros i Hi.
    assert (Hcases : i = 0%nat \/ i = 1%nat) by (cbn in Hi; lia).
    destruct Hcases as [-> | ->]; reflexivity.
  - reflexivity.
Defined.

(** ** The first call of [createInstance] *)

Lemma createInstance_issues_run (name region image key : string) (w : World) (s : Trace) :
  exists tl, snd (createInstance name region image key w s)
             = s ++ Remote (Ec2 (RunInstances (instanceParams image key))) :: tl.
Proof.
  unfold createInstance, instanceInfo. monad.
  destruct (ec2_runInstances w (calls s) (instanceParams image key)) as [resp|err];
    monad; [|now exists []].
  destruct (run_Instances resp) as [|i0 rest]; cbn [hd_error]; monad;
    [now exists []|].
  match goal with
  | |- context [ec2_createTags w ?n ?p] => destruct (ec2_createTags w n p)
  end; monad; [|eexists; rewrite <- !app_assoc; reflexivity].
  match goal with
  | |- context [ec2_describeInstances w ?n ?p] => destruct (ec2_describeInstances w n p) as [d|]
  end; monad; [|eexists; rewrite <- !app_assoc; reflexivity].
  destruct (Reservations d); cbn [hd_error]; monad;
    eexists; rewrite <- !app_assoc; reflexivity.
Qed.

(** ** Parameter validation *)

(** C2, as the code has it.  A DigitalOcean create call with an empty name,
    region, image or key name issues no remote call and signals a
    [ValidationError]: the message is logged and the call returns
    [undefined].  The AWS client does not validate: [createInstance] issues
    [RunInstances] whatever its parameters are. *)
Theorem create_empty_parameter :
  create_rejects_empty digitalocean /\
  (forall client name region image key w s,
      some_empty name region image key ->
      createDroplet client name region image key w s
      = (Returned None,
         s ++ [Console Stdout red
                 "You must provide non-empty parameters for createDroplet!"])) /\
  (forall name region image key w s,
      exists tl, snd (createInstance name region image key w s)
                 = s ++ Remote (Ec2 (RunInstances (instanceParams image key))) :: tl).
Proof.
  assert (Hrun : forall client name region image key w s,
      some_empty name region image key ->
      createDroplet client name region image key w s
      = (Returned None,
         s ++ [Console Stdout red
                 "You must provide non-empty parameters for createDroplet!"])).
  { intros client name region image key w s Hempty. unfold createDroplet.
    assert (Htest : (name =? "")%string || (region =? "")%string
                    || (image =? "")%string || (key =? "")%string = true).
    { destruct Hempty as [-> | [-> | [-> | ->]]]; cbn [String.eqb];
        rewrite ?orb_true_r; reflexivity. }
    rewrite Htest. reflexivity. }
  split; [|split; [exact Hrun | apply createInstance_issues_run]].
  intros client name region image key w s Hempty. cbv zeta.
  rewrite (Hrun client name region image key w s Hempty). split.
  - eexists; eexists; reflexivity.
  - cbn [snd]. counts. lia.
Qed.

Lemma create_empty_parameter_witness :
  createDroplet stub_client "jwmanes2-1" "" "ubuntu-19-10-x64" "csc519" stub_world []
  = (Returned None,
     [Console Stdout red "You must provide non-empty parameters for createDroplet!"]).
Proof.
  apply (proj1 (proj2 create_empty_parameter)
           stub_client "jwmanes2-1" "" "ubuntu-19-10-x64" "csc519" stub_world []).
  right; left; reflexivity.
Defined.

(** C2 fails for the AWS client: with an empty name [createInstance] issues
    its three remote calls and returns the instance. *)
Lemma create_empty_parameter_aws_counterexample :
  some_empty "" "us-east-1" "ami-0b6b1f8f449568786" "csc519" /\
  calls (snd (createInstance "" "us-east-1" "ami-0b6b1f8f449568786" "csc519"
                stub_world [])) = 3%nat /\
  ~ create_rejects_empty aws.
Proof.
  split; [left; reflexivity|]. split; [reflexivity|].
  intros H.
  destruct (H stub_client "" "us-east-1" "ami-0b6b1f8f449568786" "csc519"
              stub_world [] (or_introl eq_refl)) as [_ Hcalls].
  vm_compute in Hcalls. discriminate.
Qed.




(** The same for a DigitalOcean id given as a string of digits. *)
Example wrong_id_type_digitalocean :
  dropletInfo stub_client (JsStr "555") stub_world []
  = (Returned None,
     [Console Stdout red "You must provide an integer id for your droplet!"]) /\
  deleteDroplet stub_client (JsStr "555") stub_world []
  = (Returned tt,
     [Console Stdout red "You must provide an integer id for your droplet!"]).
Proof. split; reflexivity. Qed.

(** ** The region argument *)

(** C10.  Two [createInstance] calls that differ only in their region
    behave alike, in every world and state: same outcome, same trace; and
    the [RunInstances] parameters they issue are built from the image and
    the key name alone. *)
Theorem createInstance_ignores_region :
  forall (name region1 region2 image key : string) (w : World) (s : Trace),
    createInstance name region1 image key w s
    = createInstance name region2 image key w s /\
    exists tl,
      snd (createInstance name region1 image key w s)
      = s ++ Remote (Ec2 (RunInstances {| ImageId := image;
                                           InstanceType := "t2.micro";
                                           KeyName := key;
                                           MinCount := 1;
                                           MaxCount := 1 |})) :: tl.
Proof.
  intros name region1 region2 image key w s. split; [reflexivity|].
  apply createInstance_issues_run.
Qed.

(** ** The DigitalOcean token *)

(** C7.  When a DigitalOcean command runs and [NCSU_DOTOKEN] is absent or
    empty, the process prints the three messages and exits with code 1;
    nothing else happens, in particular no remote call.  The earlier
    script does the same at load time, whatever follows. *)
Theorem missing_token_exits (cmd : Command) (w : World) (s : Trace) :
  provider_of cmd = digitalocean ->
  token_absent w ->
  hw0 cmd w s = (Exited 1, s ++ missing_token_messages) /\
  exit_code (hw0 cmd w s) = Some 1 /\
  calls (snd (hw0 cmd w s)) = calls s /\
  (forall rest, Part000.script rest w s = (Exited 1, s ++ missing_token_messages)).
Proof.
  intros Hdo Habsent.
  assert (Hvalidate : forall A, @token_missing A w s
                                = (Exited 1, s ++ missing_token_messages)).
  { intros A. unfold token_missing. monad. now rewrite <- !app_assoc. }
  assert (Hrun : hw0 cmd w s = (Exited 1, s ++ missing_token_messages)).
  { destruct cmd as [[|]|[|] id]; try discriminate; cbn [hw0];
      unfold provisionDigitalOceanDroplet, destroyDigitalOceanDroplet,
        validateDigitalOceanToken, bind at 1 2, ask;
      destruct Habsent as [-> | ->]; cbn [String.eqb];
      rewrite Hvalidate; reflexivity. }
  split; [exact Hrun|]. rewrite Hrun. split; [reflexivity|].
  split; [cbn [snd]; unfold missing_token_messages; counts; lia|].
  intros rest. unfold Part000.script, bind at 1, ask.
  destruct Habsent as [-> | ->]; cbn [String.eqb]; apply Hvalidate.
Qed.

Lemma missing_token_exits_witness :
  hw0 (rm digitalocean (JsNum 555)) no_token_world []
  = (Exited 1, missing_token_messages).
Proof.
  apply (missing_token_exits (rm digitalocean (JsNum 555)) no_token_world []).
  - reflexivity.
  - left; reflexivity.
Defined.

(** ** Deleting a droplet *)

(** C8.  When the DELETE request of [deleteDroplet] is rejected (no answer,
    or a status outside 2xx), the method logs the failure on standard error
    and returns normally; the request was issued once and nothing
    follows. *)
Theorem delete_transport_failure (client : DigitalOceanProvider) (dropletId : Z)
    (w : World) (s : Trace) (err : GotError) :
  got w (calls s) (delete_request client dropletId) = Rejected err ->
  deleteDroplet client (JsNum dropletId) w s
  = (Returned tt,
     s ++ [Remote (Http (delete_request client dropletId));
           Console Stderr red ("deleteDroplet: " +++ show_GotError err)]).
Proof.
  intros Hreply. unfold deleteDroplet.
  cbn [typeof js_toString].
  change (negb ("number" =? "number")%string) with false.
  monad. fold (delete_request client dropletId). rewrite Hreply. monad.
  now rewrite <- app_assoc.
Qed.

Lemma delete_transport_failure_witness :
  deleteDroplet stub_client (JsNum 9) stub_world []
  = (Returned tt,
     [Remote (Http (delete_request stub_client 9));
      Console Stderr red "deleteDroplet: HTTPError: Response code 404"]).
Proof.
  apply (delete_transport_failure stub_client 9 stub_world [] (HTTPError 404)).
  reflexivity.
Defined.

(** ** Resolving the SSH key *)

Lemma find_key_none (keys : list SSHKey) (name : string) :
  (forall k, In k keys -> key_name k <> name) ->
  find (fun key => String.eqb (key_name key) name) keys = None.
Proof.
  intros Hnone. induction keys as [|k keys IH]; [reflexivity|].
  cbn [find]. destruct (String.eqb_spec (key_name k) name) as [Heq|_].
  - exfalso. apply (Hnone k); [now left | exact Heq].
  - apply IH. intros k' Hin. apply Hnone. now right.
Qed.

Lemma nonempty_test (name region image key : string) :
  name <> "" -> region <> "" -> image <> "" -> key <> "" ->
  (name =? "")%string || (region =? "")%string
  || (image =? "")%string || (key =? "")%string = false.
Proof.
  intros Hn Hr Hi Hk.
  apply String.eqb_neq in Hn, Hr, Hi, Hk. now rewrite Hn, Hr, Hi, Hk.
Qed.

(** The events [createDroplet] adds: either no create request at all, or
    the keys request, the announcement and then the one create request. *)
Lemma createDroplet_shape client name region image key w s :
  exists added,
    snd (createDroplet client name region image key w s) = s ++ added /\
    (Forall (fun e => is_create_request e = false) added \/
     exists msg req rest,
       added = Remote (Http (keys_request client))
                 :: Console Stdout plain msg :: Remote (Http req) :: rest /\
       Forall (fun e => is_create_request e = false) rest).
Proof.
  unfold createDroplet.
  destruct ((name =? "")%string || (region =? "")%string
            || (image =? "")%string || (key =? "")%string).
  { monad. eexists. split; [reflexivity|]. left. repeat constructor. }
  unfold findSSHKeyPair, makeRequest. monad. fold (keys_request client).
  destruct (got w (calls s) (keys_request client)) as [r|err]; monad.
  2:{ eexists. split; [rewrite <- !app_assoc; reflexivity|].
      left. repeat constructor. }
  assert (Hnot_found :
    exists added,
      s ++ [Remote (Http (keys_request client))] = s ++ added /\
      (Forall (fun e => is_create_request e = false) added \/
       exists msg req rest,
         added = Remote (Http (keys_request client))
                   :: Console Stdout plain msg :: Remote (Http req) :: rest /\
         Forall (fun e => is_create_request e = false) rest)).
  { eexists. split; [reflexivity|]. left. repeat constructor. }
  destruct (body r) as [b|]; [|exact Hnot_found].
  destruct (ssh_keys b) as [keys|]; [|exact Hnot_found].
  destruct (find (fun k => (key_name k =? key)%string) keys) as [k|];
    monad; [|exact Hnot_found].
  clear Hnot_found.
  match goal with
  | |- context [got w ?n ?req] => destruct (got w n req) as [resp|err] eqn:Hpost
  end; monad.
  2:{ eexists. split; [rewrite <- !app_assoc; reflexivity|].
      right. do 3 eexists. split; [reflexivity|]. repeat constructor. }
  destruct (statusCode resp =? 202); monad;
    [destruct (body resp) as [b'|]; monad;
     [destruct (droplet b') as [d|]; monad|]|].
  all: eexists; split; [rewrite <- !app_assoc; reflexivity|];
    right; do 3 eexists; (split; [reflexivity|]); repeat constructor.
Qed.

(** C3.  A DigitalOcean create call with non-empty parameters whose key
    name matches no key of the account's list throws the not-found error
    and issues no droplet-create request.  In every call, whatever the
    parameters, a droplet-create request is preceded by the request that
    resolves the key name. *)
Theorem create_unknown_key (client : DigitalOceanProvider)
    (name region image key : string) (w : World) (s : Trace) :
  (name <> "" -> region <> "" -> image <> "" -> key <> "" ->
   (forall k, In k (account_keys (got w (calls s) (keys_request client))) ->
              key_name k <> key) ->
   exists s',
     createDroplet client name region image key w s
     = (Thrown (Error ("Unable to find SSH key pair: " +++ key)), s') /\
     count is_create_request s' = count is_create_request s) /\
  (forall added pre e post,
      snd (createDroplet client name region image key w s) = s ++ added ->
      added = pre ++ e :: post ->
      is_create_request e = true ->
      In (Remote (Http (keys_request client))) pre).
Proof.
  split.
  - intros Hn Hr Hi Hk Hnone. unfold createDroplet.
    rewrite (nonempty_test _ _ _ _ Hn Hr Hi Hk).
    unfold findSSHKeyPair, makeRequest. monad. fold (keys_request client).
    unfold account_keys in Hnone.
    destruct (got w (calls s) (keys_request client)) as [r|err]; monad.
    + assert (Hfind :
        match body r with
        | Some b =>
            match ssh_keys b with
            | Some keys => find (fun k => (key_name k =? key)%string) keys
            | None => None
            end
        | None => None
        end = None).
      { destruct (body r) as [b|]; [|reflexivity].
        destruct (ssh_keys b) as [keys|]; [|reflexivity].
        now apply find_key_none. }
      rewrite Hfind. monad. eexists. split; [reflexivity|].
      rewrite count_app. cbn. lia.
    + eexists. split; [reflexivity|].
      rewrite !count_app. cbn. lia.
  - intros added pre e post Hsnd Hsplit He.
    destruct (createDroplet_shape client name region image key w s)
      as (added' & Hsnd' & Hshape).
    rewrite Hsnd in Hsnd'. apply app_inv_head in Hsnd'. subst added'.
    destruct Hshape as [Hnone | (msg & req & rest & Hadded & Hrest)].
    + exfalso. rewrite Forall_forall in Hnone.
      rewrite (Hnone e) in He; [discriminate|].
      rewrite Hsplit. apply in_elt.
    + rewrite Hadded in Hsplit.
      destruct pre as [|e1 pre].
      { cbn in Hsplit. injection Hsplit as <- _. discriminate. }
      cbn in Hsplit. injection Hsplit as <- _. now left.
Qed.

Lemma create_unknown_key_witness :
  exists s',
    createDroplet stub_client "jwmanes2-1" "nyc1" "ubuntu-19-10-x64" "laptop"
      stub_world []
    = (Thrown (Error "Unable to find SSH key pair: laptop"), s') /\
    count is_create_request s' = 0%nat.
Proof.
  apply (proj1 (create_unknown_key stub_client "jwmanes2-1" "nyc1"
                  "ubuntu-19-10-x64" "laptop" stub_world []));
    try discriminate.
  intros k Hin. cbn in Hin.
  destruct Hin as [<- | [<- | []]]; discriminate.
Defined.

(** ** Pauses between attempts *)

Lemma quiet_sleeps (evs : Trace) : quiet evs -> sleeps evs = [].
Proof.
  induction 1 as [|e evs [_ Hs] _ IH]; [reflexivity|].
  unfold sleeps in *. cbn [flat_map]. rewrite IH.
  destruct e; try reflexivity. discriminate.
Qed.

Lemma sleeps_app (a b : Trace) : sleeps (a ++ b) = sleeps a ++ sleeps b.
Proof. unfold sleeps. apply flat_map_app. Qed.

(** [k] attempts are separated by [k - 1] pauses, the one after attempt
    [i] lasting [interval o (jitter w i)]. *)
Lemma attempts_trace_sleeps o w c a k tr :
  attempts_trace o w c a k tr ->
  sleeps tr = map (fun i => interval o (jitter w i)) (seq a (k - 1)).
Proof.
  induction 1 as [a evs Hq _ | a k evs rest Hq _ Hrest IH].
  - change (Invoke a :: evs) with ([Invoke a] ++ evs).
    rewrite sleeps_app, (quiet_sleeps _ Hq). reflexivity.
  - change (Invoke a :: evs ++ Sleep (interval o (jitter w a)) :: rest)
      with ([Invoke a] ++ evs ++ [Sleep (interval o (jitter w a))] ++ rest).
    rewrite !sleeps_app, (quiet_sleeps _ Hq), IH.
    assert (Hk : (1 <= k)%nat) by (inversion Hrest; lia).
    replace (S k - 1)%nat with (S (k - 1)) by lia.
    reflexivity.
Qed.

Lemma interval_bound (L : PollLoop) (draw : Z) :
  sleep_bound L (interval (loop_opts L) draw).
Proof.
  destruct L; cbn; try reflexivity. lia.
Qed.

(** C5.  Every run of a poll loop is a sequence of [k] attempts within the
    budget with exactly one pause between two consecutive attempts, [k - 1]
    in all; each pause lasts exactly 3000 ms in the two create loops and
    between 1000 and 3000 ms in the termination loop, whatever the attempt
    number, so the pauses do not grow. *)
Theorem poll_pauses (L : PollLoop) (w : World) (s : Trace) :
  exists (k : nat) (added : Trace),
    (1 <= k <= max_attempts (loop_opts L))%nat /\
    snd (run_poll L w s) = s ++ added /\
    attempts_trace (loop_opts L) w (loop_call L) 1 k added /\
    length (sleeps added) = (k - 1)%nat /\
    Forall (sleep_bound L) (sleeps added).
Proof.
  destruct (run_poll_shape L w s) as (k & added & Hk & Hs & Htr & _).
  exists k, added. repeat split; try assumption; try lia.
  - rewrite (attempts_trace_sleeps _ _ _ _ _ _ Htr).
    now rewrite length_map, length_seq.
  - rewrite (attempts_trace_sleeps _ _ _ _ _ _ Htr).
    apply Forall_map, Forall_forall. intros i _. apply interval_bound.
Qed.

(** ** Readiness *)

Lemma ready_iff_ipv4 (desc : Descriptor) :
  ready desc = true <-> ipv4 desc <> [].
Proof.
  destruct desc as [d|i]; cbn [ready ipv4].
  - unfold networking_ready, v4_entries.
    destruct (networks d) as [n|];
      [destruct (v4 n) as [[|net l]|]|]; cbn;
      split; intros H; first [discriminate | reflexivity | now contradiction H].
  - unfold truthy.
    destruct (PublicIpAddress i) as [ip|];
      [destruct (ip =? "")%string|]; cbn;
      split; intros H; first [discriminate | reflexivity | now contradiction H].
Qed.

(** A public address is an address. *)
Lemma public_is_ipv4 (desc : Descriptor) :
  carries_address desc -> ipv4 desc <> [].
Proof.
  unfold carries_address. destruct desc as [d|i]; cbn [public_ipv4 ipv4]; [|auto].
  destruct (v4_entries d) as [|net l]; [intros H; now contradiction H|discriminate].
Qed.

(** On a reply that holds a descriptor, a create retrier returns the first
    IPv4 address of the descriptor, and throws when there is none. *)
Lemma probe_sequence_first_address (L : PollLoop) (w : World) (n : nat)
    (desc : Descriptor) :
  probed_descriptor L w n = Some desc ->
  probe_sequence L w n = hd_error (ipv4 desc).
Proof.
  destruct L as [client dropletId | instanceId | params];
    cbn [probe_sequence probed_descriptor]; [| |discriminate].
  - unfold droplet_ready.
    destruct (got w n (droplet_request client dropletId)) as [r|]; [|discriminate].
    destruct (body r) as [b|]; [|discriminate].
    destruct (droplet b) as [d|]; [|discriminate].
    intros [= <-]. cbn [ipv4].
    unfold networking_ready, first_v4, v4_entries.
    destruct (networks d) as [nets|]; [|reflexivity].
    destruct (v4 nets) as [[|net l]|]; reflexivity.
  - unfold instance_ready.
    destruct (ec2_describeInstances w n {| InstanceIds := [instanceId] |})
      as [resp|]; [|discriminate].
    destruct (Reservations resp) as [|r0 rs]; [discriminate|].
    destruct (Instances r0) as [|info others]; [discriminate|].
    intros [= <-]. cbn [ipv4]. unfold truthy.
    destruct (PublicIpAddress info) as [ip|]; [|reflexivity].
    destruct (ip =? "")%string; reflexivity.
Qed.

(** A create retrier returns only on a reply that holds a descriptor. *)
Lemma probe_sequence_descriptor (L : PollLoop) (w : World) (n : nat) (v : string) :
  is_create_poll L = true ->
  probe_sequence L w n = Some v ->
  exists desc, probed_descriptor L w n = Some desc.
Proof.
  destruct L as [client dropletId | instanceId | params]; [| |discriminate];
    intros _; cbn [probe_sequence probed_descriptor].
  - unfold droplet_ready.
    destruct (got w n (droplet_request client dropletId)) as [r|]; [|discriminate].
    destruct (body r) as [b|]; [|discriminate].
    destruct (droplet b) as [d|]; [|discriminate].
    intros _. now eexists.
  - unfold instance_ready.
    destruct (ec2_describeInstances w n {| InstanceIds := [instanceId] |})
      as [resp|]; [|discriminate].
    destruct (Reservations resp) as [|r0 rs]; [discriminate|].
    destruct (Instances r0) as [|info others]; [discriminate|].
    intros _. now eexists.
Qed.

(** C6, as the code has it.  A descriptor passes the readiness test of a
    create retrier if and only if it carries at least one IPv4 address: for
    an instance its public address, for a droplet any entry of
    [networks.v4], public or private, since the type of an entry is not
    read.  So a descriptor with a public address always passes, and for an
    instance passing means having one.  An attempt whose probe gets a
    descriptor without an address throws, and the loop goes on (or runs
    out of budget) instead of finishing on it; an attempt whose probe gets
    a descriptor with an address returns the first one, and the loop ends
    there.  When a create loop returns, the descriptor of its last probe
    carries the returned address as its first. *)
Theorem create_readiness :
  (forall desc, ready desc = true <-> ipv4 desc <> []) /\
  (forall desc, carries_address desc -> ready desc = true) /\
  (forall i, ready (InstanceDescriptor i) = true ->
             carries_address (InstanceDescriptor i)) /\
  (forall L w s desc,
      probed_descriptor L w (calls s) = Some desc ->
      (ipv4 desc = [] -> exists e s', loop_retrier L w s = (Thrown e, s')) /\
      (forall a rest,
          ipv4 desc = a :: rest ->
          (exists s', loop_retrier L w s = (Returned a, s')) /\
          (exists s', run_poll L w s = (Returned a, s') /\
                      invocations s' = (invocations s + 1)%nat))) /\
  (forall L w s v s',
      is_create_poll L = true ->
      run_poll L w s = (Returned v, s') ->
      exists desc,
        probed_descriptor L w (calls s' - 1) = Some desc /\
        hd_error (ipv4 desc) = Some v).
Proof.
  split; [exact ready_iff_ipv4|].
  split; [intros desc H; now apply ready_iff_ipv4, public_is_ipv4|].
  split; [intros i H; now apply ready_iff_ipv4 in H|].
  split.
  - intros L w s desc Hdesc.
    pose proof (probe_outcome _ _ _ _ (loop_retrier_probe L w) s) as Hout.
    pose proof (probe_sequence_first_address L w (calls s) desc Hdesc) as Hseq.
    rewrite Hseq in Hout. split.
    + intros Hnone. rewrite Hnone in Hout. destruct Hout as [e He].
      exists e, (snd (loop_retrier L w s)).
      destruct (loop_retrier L w s); simpl in *; congruence.
    + intros a rest Hsome. rewrite Hsome in Hout, Hseq. cbn in Hout, Hseq. split.
      * exists (snd (loop_retrier L w s)).
        destruct (loop_retrier L w s); simpl in *; congruence.
      * destruct (run_poll_shape L w s)
          as (k & added & Hk & Hs & Htr & Hnone & Hres).
        assert (k = 1%nat).
        { destruct (Nat.eq_dec k 1) as [|Hne]; [assumption|].
          specialize (Hnone 0%nat ltac:(lia)).
          rewrite Nat.add_0_r in Hnone. congruence. }
        subst k. cbn [Nat.sub] in Hres. rewrite Nat.add_0_r in Hres.
        destruct Hres as [(v & Hv & Hr) | (_ & Hv & _)]; [|congruence].
        assert (v = a) by congruence. subst v.
        exists (s ++ added). split; [now apply run_poll_eq|].
        now apply invocations_added with (1 := Htr).
  - intros L w s v s' Hcreate Hrun.
    destruct (run_poll_shape L w s)
      as (k & added & Hk & Hs & Htr & _ & Hres).
    rewrite Hrun in Hs, Hres. cbn [fst snd] in Hs, Hres.
    destruct Hres as [(v' & Hv' & Hr) | (_ & _ & Hr)]; [|discriminate].
    injection Hr as <-.
    assert (Hlast : (calls s' - 1 = calls s + (k - 1))%nat).
    { rewrite Hs, (calls_added _ _ _ s added k Htr). lia. }
    rewrite Hlast.
    destruct (probe_sequence_descriptor L w _ v Hcreate Hv') as [desc Hdesc].
    exists desc. split; [exact Hdesc|].
    now rewrite <- (probe_sequence_first_address L w _ desc Hdesc).
Qed.

Lemma create_readiness_witness :
  (exists s', droplet_retrier stub_client (JsNum 555) stub_world
                (two_calls ++ two_calls) = (Returned "203.0.113.5", s')) /\
  (exists s', run_poll (DropletPoll stub_client 555) stub_world
                (two_calls ++ two_calls) = (Returned "203.0.113.5", s') /\
              invocations s' = 1%nat).
Proof.
  apply (proj2 (proj1 (proj2 (proj2 (proj2 create_readiness)))
                  (DropletPoll stub_client 555) stub_world (two_calls ++ two_calls)
                  (DropletDescriptor
                     {| droplet_id := 555;
                        networks := Some {| v4 := Some [{| ip_address := "203.0.113.5";
                                                           type := "public" |}] |} |})
                  eq_refl)
           "203.0.113.5" []).
  reflexivity.
Defined.

(** C6 fails as stated: a droplet whose only entry in [networks.v4] is a
    private address carries no public IPv4 address, yet it passes the
    readiness test and the create poll ends on it at the first attempt,
    returning the private address. *)
Lemma create_readiness_private_counterexample :
  probed_descriptor (DropletPoll stub_client 555) private_world 0
  = Some (DropletDescriptor private_droplet) /\
  public_ipv4 (DropletDescriptor private_droplet) = [] /\
  ready (DropletDescriptor private_droplet) = true /\
  run_poll (DropletPoll stub_client 555) private_world []
  = (Returned "10.132.0.2",
     [Invoke 1;
      Remote (Http (droplet_request stub_client 555));
      Console Stdout plain "IP: 10.132.0.2"]) /\
  ~ (forall desc, ready desc = true <-> carries_address desc).
Proof.
  split; [reflexivity|]. split; [reflexivity|]. split; [reflexivity|].
  split; [reflexivity|].
  intros H. apply (proj1 (H (DropletDescriptor private_droplet)) eq_refl).
  reflexivity.
Qed.

(** ** Terminating an instance *)

(** C9.  An AWS delete that completes has issued [TerminateInstances] once
    before the poll loop and once more in each of the [k >= 1] attempts of
    the loop, at least twice in all, and no other remote call: the probe of
    the loop is the terminate call itself. *)
Theorem deleteInstance_terminate_calls (id : JsVal) (w : World) (s s' : Trace)
    (r : TerminateInstancesResult) :
  deleteInstance id w s = (Returned r, s') ->
  exists (k : nat) (added : Trace),
    (1 <= k <= 50)%nat /\
    s' = s ++ added /\
    filter is_remote added
    = repeat (Remote (Ec2 (TerminateInstances {| InstanceIds := [id] |}))) (1 + k) /\
    invocations added = k.
Proof.
  unfold deleteInstance. monad.
  destruct (ec2_terminateInstances w (calls s) {| InstanceIds := [id] |}) as [resp|];
    monad; [|discriminate].
  change (retry (termination_retrier {| InstanceIds := [id] |}) termination_opts)
    with (run_poll (TerminationPoll {| InstanceIds := [id] |})).
  match goal with
  | |- context [run_poll ?L w ?s1] =>
      destruct (run_poll_shape L w s1)
        as (k & added & Hk & Hs & Htr & _ & _);
      destruct (run_poll L w s1) as [[v|e|c] s2]
  end; try discriminate.
  cbn [snd] in Hs. subst s2. intros [= _ <-].
  exists k.
  exists ([Remote (Ec2 (TerminateInstances {| InstanceIds := [id] |}));
           Console Stdout plain "Waiting for termination..."] ++ added).
  split; [exact Hk|]. split; [now rewrite <- !app_assoc|]. split.
  - rewrite filter_app. cbn [filter is_remote app repeat Nat.add].
    now rewrite (attempts_trace_remote _ _ _ _ _ _ Htr).
  - unfold invocations. rewrite count_app.
    fold (invocations added).
    now rewrite (attempts_trace_invocations _ _ _ _ _ _ Htr).
Qed.

Lemma deleteInstance_terminate_calls_witness :
  exists (k : nat) (added : Trace),
    (1 <= k <= 50)%nat /\
    snd (deleteInstance (JsStr "i-0abc") stub_world []) = [] ++ added /\
    filter is_remote added
    = repeat (Remote (Ec2 (TerminateInstances {| InstanceIds := [JsStr "i-0abc"] |})))
             (1 + k) /\
    invocations added = k.
Proof.
  apply (deleteInstance_terminate_calls (JsStr "i-0abc") stub_world []
           (snd (deleteInstance (JsStr "i-0abc") stub_world []))
           {| TerminatingInstances :=
                [{| CurrentState := {| Name := "shutting-down" |} |}] |}).
  reflexivity.
Defined.

(** * Further properties of the code *)

(** ** Looking a key up *)

Lemma find_first_match (pre post : list SSHKey) (k : SSHKey) (name : string) :
  key_name k = name ->
  (forall k', In k' pre -> key_name k' <> name) ->
  find (fun key => String.eqb (key_name key) name) (pre ++ k :: post) = Some k.
Proof.
  intros Hk Hpre. induction pre as [|k0 pre IH]; cbn [app find].
  - now rewrite (proj2 (String.eqb_eq _ _) Hk).
  - destruct (String.eqb_spec (key_name k0) name) as [Heq|_].
    + exfalso. apply (Hpre k0); [now left | exact Heq].
    + apply IH. intros k' Hin. apply Hpre. now right.
Qed.

Lemma account_keys_cons (p : Reply HttpResponse GotError) (k : SSHKey)
    (pre post : list SSHKey) :
  account_keys p = pre ++ k :: post ->
  exists r b, p = Resolved r /\ body r = Some b /\
              ssh_keys b = Some (pre ++ k :: post).
Proof.
  unfold account_keys. intros H.
  destruct p as [r|err]; [|now destruct pre].
  destruct (body r) as [b|] eqn:Hb; [|now destruct pre].
  destruct (ssh_keys b) as [keys|] eqn:Hkeys; [|now destruct pre].
  exists r, b. now subst.
Qed.

(** X1.  When the account lists a key with the wanted name,
    [findSSHKeyPair] returns the id of the first such key (later keys of
    the same name are ignored), after one request and without output. *)
Theorem findSSHKeyPair_first_match (client : DigitalOceanProvider)
    (name : string) (w : World) (s : Trace)
    (pre post : list SSHKey) (k : SSHKey) :
  account_keys (got w (calls s) (keys_request client)) = pre ++ k :: post ->
  key_name k = name ->
  (forall k', In k' pre -> key_name k' <> name) ->
  findSSHKeyPair client name w s
  = (Returned (key_id k), s ++ [Remote (Http (keys_request client))]).
Proof.
  intros Hkeys Hk Hpre.
  destruct (account_keys_cons _ _ _ _ Hkeys) as (r & b & Hr & Hb & Hl).
  unfold findSSHKeyPair, makeRequest. monad. fold (keys_request client).
  rewrite Hr. monad. rewrite Hb, Hl.
  rewrite (find_first_match pre post k name Hk Hpre). reflexivity.
Qed.

Lemma findSSHKeyPair_first_match_witness :
  findSSHKeyPair stub_client "csc519" stub_world []
  = (Returned 77, [Remote (Http (keys_request stub_client))]).
Proof.
  apply (findSSHKeyPair_first_match stub_client "csc519" stub_world []
           [{| key_id := 42; key_name := "other" |}] []
           {| key_id := 77; key_name := "csc519" |}).
  - reflexivity.
  - reflexivity.
  - intros k' [<- | []]. discriminate.
Defined.

(** ** Creating a droplet *)

Lemma calls_snoc_remote (s : Trace) (c : RemoteCall) :
  calls (s ++ [Remote c]) = S (calls s).
Proof. counts. lia. Qed.

Lemma calls_snoc_console (s : Trace) out st msg :
  calls (s ++ [Console out st msg]) = calls s.
Proof. counts. lia. Qed.

(** What [createDroplet] does once the key is found, by the reply to the
    create request. *)
Lemma createDroplet_found_run (client : DigitalOceanProvider)
    (name region image key : string) (w : World) (s : Trace)
    (pre post : list SSHKey) (k : SSHKey) :
  name <> "" -> region <> "" -> image <> "" -> key <> "" ->
  account_keys (got w (calls s) (keys_request client)) = pre ++ k :: post ->
  key_name k = key ->
  (forall k', In k' pre -> key_name k' <> key) ->
  let data := droplet_data name region image (key_id k) in
  let s1 := s ++ [Remote (Http (keys_request client));
                  Console Stdout plain ("Attempting to create: " +++ JSON_stringify data);
                  Remote (Http (post_request client data))] in
  createDroplet client name region image key w s
  = match got w (S (calls s)) (post_request client data) with
    | Rejected err =>
        (Returned None,
         s1 ++ [Console Stderr red ("createDroplet: " +++ show_GotError err)])
    | Resolved r =>
        if statusCode r =? 202 then
          match body r with
          | Some b =>
              match droplet b with
              | Some d =>
                  (Returned (Some r),
                   s1 ++ [Console Stdout green
                            ("Created droplet id " +++ show_Z (droplet_id d))])
              | None =>
                  (Thrown (TypeError "Cannot read property 'id' of undefined"), s1)
              end
          | None =>
              (Thrown (TypeError "Cannot read property 'droplet' of undefined"), s1)
          end
        else (Returned (Some r), s1)
    end.
Proof.
  intros Hn Hr Hi Hk Hkeys Hname Hpre data s1.
  destruct (account_keys_cons _ _ _ _ Hkeys) as (r0 & b0 & Hr0 & Hb0 & Hl0).
  unfold createDroplet. rewrite (nonempty_test _ _ _ _ Hn Hr Hi Hk).
  unfold findSSHKeyPair, makeRequest. monad. fold (keys_request client).
  rewrite Hr0. monad. rewrite Hb0, Hl0.
  rewrite (find_first_match pre post k key Hname Hpre). monad.
  fold (droplet_data name region image (key_id k)). fold data.
  fold (post_request client data).
  rewrite calls_snoc_console, calls_snoc_remote.
  subst s1.
  destruct (got w (S (calls s)) (post_request client data)) as [r|err]; monad.
  - destruct (statusCode r =? 202); monad.
    + destruct (body r) as [b|]; monad.
      * destruct (droplet b) as [d|]; monad; now rewrite <- !app_assoc.
      * now rewrite <- !app_assoc.
    + now rewrite <- !app_assoc.
  - now rewrite <- !app_assoc.
Qed.

Lemma remote_calls_app (a b : Trace) :
  remote_calls (a ++ b) = remote_calls a ++ remote_calls b.
Proof. unfold remote_calls. apply flat_map_app. Qed.

Lemma remote_calls_filter (tr : Trace) :
  remote_calls (filter is_remote tr) = remote_calls tr.
Proof.
  induction tr as [|e tr IH]; [reflexivity|].
  destruct e; cbn [filter is_remote]; try exact IH.
  change (remote_calls (Remote c :: filter is_remote tr))
    with (c :: remote_calls (filter is_remote tr)).
  now rewrite IH.
Qed.

Lemma remote_calls_length (tr : Trace) : length (remote_calls tr) = calls tr.
Proof.
  induction tr as [|e tr IH]; [reflexivity|].
  unfold calls, count in *. destruct e; cbn; auto.
Qed.

(** The remote calls of [k] attempts, as calls. *)
Lemma attempts_trace_remote_calls o w c a k tr :
  attempts_trace o w c a k tr -> remote_calls tr = repeat c k.
Proof.
  intros H. rewrite <- remote_calls_filter.
  rewrite (attempts_trace_remote _ _ _ _ _ _ H).
  clear H. induction k as [|k IH]; [reflexivity|].
  cbn [repeat]. change (remote_calls (Remote c :: repeat (Remote c) k))
    with (c :: remote_calls (repeat (Remote c) k)).
  now rewrite IH.
Qed.

(** X2.  With non-empty parameters and a key of the wanted name in the
    account, [createDroplet] issues exactly two remote calls: the key
    lookup, then one create request to [/v2/droplets] whose body carries
    the name, region and image as given, size 512mb, the id of the first
    key of that name, and neither backups nor IPv6. *)
Theorem createDroplet_one_create_request (client : DigitalOceanProvider)
    (name region image key : string) (w : World) (s : Trace)
    (pre post : list SSHKey) (k : SSHKey) :
  name <> "" -> region <> "" -> image <> "" -> key <> "" ->
  account_keys (got w (calls s) (keys_request client)) = pre ++ k :: post ->
  key_name k = key ->
  (forall k', In k' pre -> key_name k' <> key) ->
  exists added,
    snd (createDroplet client name region image key w s) = s ++ added /\
    remote_calls added
    = [Http (keys_request client);
       Http {| method := POST;
               url := "https://api.digitalocean.com/v2/droplets";
               req_headers := headers client;
               req_body := Some {| data_name := name;
                                   data_region := region;
                                   data_size := "512mb";
                                   data_image := image;
                                   data_ssh_keys := [key_id k];
                                   data_backups := false;
                                   data_ipv6 := false |} |}].
Proof.
  intros Hn Hr Hi Hk Hkeys Hname Hpre.
  rewrite (createDroplet_found_run client name region image key w s pre post k
             Hn Hr Hi Hk Hkeys Hname Hpre).
  cbv zeta.
  destruct (got w (S (calls s)) _) as [r|err].
  - destruct (statusCode r =? 202);
      [destruct (body r) as [b|]; [destruct (droplet b) as [d|]|]|];
      cbn [snd]; rewrite <- ?app_assoc; eexists; split; reflexivity.
  - cbn [snd]. rewrite <- app_assoc. eexists; split; reflexivity.
Qed.

Lemma createDroplet_one_create_request_witness :
  exists added,
    snd (createDroplet stub_client "jwmanes2-1" "nyc1" "ubuntu-19-10-x64" "csc519"
           stub_world []) = [] ++ added /\
    remote_calls added
    = [Http (keys_request stub_client);
       Http (post_request stub_client
               (droplet_data "jwmanes2-1" "nyc1" "ubuntu-19-10-x64" 77))].
Proof.
  apply (createDroplet_one_create_request stub_client
           "jwmanes2-1" "nyc1" "ubuntu-19-10-x64" "csc519" stub_world []
           [{| key_id := 42; key_name := "other" |}] []
           {| key_id := 77; key_name := "csc519" |});
    try discriminate; try reflexivity.
  intros k' [<- | []]. discriminate.
Defined.

(** X3.  When the create request is rejected (no answer or a status outside
    2xx), [createDroplet] does not throw: it logs the failure in red on
    standard error and returns [undefined]. *)
Theorem createDroplet_refused (client : DigitalOceanProvider)
    (name region image key : string) (w : World) (s : Trace)
    (pre post : list SSHKey) (k : SSHKey) (err : GotError) :
  name <> "" -> region <> "" -> image <> "" -> key <> "" ->
  account_keys (got w (calls s) (keys_request client)) = pre ++ k :: post ->
  key_name k = key ->
  (forall k', In k' pre -> key_name k' <> key) ->
  got w (S (calls s))
      (post_request client (droplet_data name region image (key_id k)))
  = Rejected err ->
  exists s',
    createDroplet client name region image key w s = (Returned None, s') /\
    last s' (Sleep 0)
    = Console Stderr red ("createDroplet: " +++ show_GotError err) /\
    calls s' = (calls s + 2)%nat.
Proof.
  intros Hn Hr Hi Hk Hkeys Hname Hpre Hpost.
  rewrite (createDroplet_found_run client name region image key w s pre post k
             Hn Hr Hi Hk Hkeys Hname Hpre).
  cbv zeta. rewrite Hpost. eexists. split; [reflexivity|]. split.
  - now rewrite last_last.
  - counts. lia.
Qed.

Lemma createDroplet_refused_witness :
  exists s',
    createDroplet stub_client "jwmanes2-1" "nyc1" "ubuntu-19-10-x64" "csc519"
      refusing_world [] = (Returned None, s') /\
    last s' (Sleep 0)
    = Console Stderr red "createDroplet: HTTPError: Response code 422" /\
    calls s' = 2%nat.
Proof.
  apply (createDroplet_refused stub_client
           "jwmanes2-1" "nyc1" "ubuntu-19-10-x64" "csc519" refusing_world []
           [{| key_id := 42; key_name := "other" |}] []
           {| key_id := 77; key_name := "csc519" |} (HTTPError 422));
    try discriminate; try reflexivity.
  intros k' [<- | []]. discriminate.
Defined.

(** X4.  When the create request is answered with status 202 but the body
    holds no droplet, [createDroplet] throws a [TypeError] while reading the
    id for its success message, although the request was accepted. *)
Theorem createDroplet_accepted_without_droplet (client : DigitalOceanProvider)
    (name region image key : string) (w : World) (s : Trace)
    (pre post : list SSHKey) (k : SSHKey) (r : HttpResponse) (b : Body) :
  name <> "" -> region <> "" -> image <> "" -> key <> "" ->
  account_keys (got w (calls s) (keys_request client)) = pre ++ k :: post ->
  key_name k = key ->
  (forall k', In k' pre -> key_name k' <> key) ->
  got w (S (calls s))
      (post_request client (droplet_data name region image (key_id k)))
  = Resolved r ->
  statusCode r = 202 -> body r = Some b -> droplet b = None ->
  exists s',
    createDroplet client name region image key w s
    = (Thrown (TypeError "Cannot read property 'id' of undefined"), s') /\
    calls s' = (calls s + 2)%nat.
Proof.
  intros Hn Hr Hi Hk Hkeys Hname Hpre Hpost Hstatus Hbody Hdroplet.
  rewrite (createDroplet_found_run client name region image key w s pre post k
             Hn Hr Hi Hk Hkeys Hname Hpre).
  cbv zeta. rewrite Hpost, Hstatus, Hbody, Hdroplet. cbn [Z.eqb Pos.eqb].
  eexists. split; [reflexivity|]. counts. lia.
Qed.

Lemma createDroplet_accepted_without_droplet_witness :
  exists s',
    createDroplet stub_client "jwmanes2-1" "nyc1" "ubuntu-19-10-x64" "csc519"
      accepting_without_droplet []
    = (Thrown (TypeError "Cannot read property 'id' of undefined"), s') /\
    calls s' = 2%nat.
Proof.
  apply (createDroplet_accepted_without_droplet stub_client
           "jwmanes2-1" "nyc1" "ubuntu-19-10-x64" "csc519"
           accepting_without_droplet []
           [{| key_id := 42; key_name := "other" |}] []
           {| key_id := 77; key_name := "csc519" |}
           {| statusCode := 202;
              body := Some {| ssh_keys := None; droplet := None |} |}
           {| ssh_keys := None; droplet := None |});
    try discriminate; try reflexivity.
  intros k' [<- | []]. discriminate.
Defined.

(** ** Provisioning a droplet *)

Lemma validateDigitalOceanToken_present (w : World) (s : Trace) (t : string) :
  NCSU_DOTOKEN w = Some t -> t <> "" ->
  validateDigitalOceanToken w s = (Returned t, s).
Proof.
  intros Htoken Hne. unfold validateDigitalOceanToken. monad.
  rewrite Htoken. now rewrite (proj2 (String.eqb_neq _ _) Hne).
Qed.

(** What [provisionDigitalOceanDroplet] does with the result of
    [createDroplet], once the token is there. *)
Lemma provision_after_create (w : World) (s : Trace) (t : string) :
  NCSU_DOTOKEN w = Some t -> t <> "" ->
  provisionDigitalOceanDroplet w s
  = match createDroplet (new_DigitalOceanProvider t)
            ("jwmanes2-" +++ uuid_v4 w) "nyc1" "ubuntu-19-10-x64" "csc519" w s with
    | (Returned (Some r), s1) =>
        match body r with
        | Some b =>
            match droplet b with
            | Some d =>
                match run_poll (DropletPoll (new_DigitalOceanProvider t) (droplet_id d))
                        w s1 with
                | (Returned _, s2) => (Returned tt, s2)
                | (Thrown e, s2) => (Thrown e, s2)
                | (Exited c, s2) => (Exited c, s2)
                end
            | None => (Returned tt, s1)
            end
        | None => (Thrown (TypeError "Cannot read property 'droplet' of undefined"), s1)
        end
    | (Returned None, s1) => (Returned tt, s1)
    | (Thrown e, s1) => (Thrown e, s1)
    | (Exited c, s1) => (Exited c, s1)
    end.
Proof.
  intros Htoken Hne.
  unfold provisionDigitalOceanDroplet.
  unfold bind at 1. rewrite (validateDigitalOceanToken_present w s t Htoken Hne).
  unfold bind at 1, ask. unfold bind at 1.
  destruct (createDroplet (new_DigitalOceanProvider t)
              ("jwmanes2-" +++ uuid_v4 w) "nyc1" "ubuntu-19-10-x64" "csc519" w s)
    as [[[r|]|e|c] s1]; try reflexivity.
  monad. destruct (body r) as [b|]; monad; [|reflexivity].
  destruct (droplet b) as [d|]; monad; [|reflexivity].
  unfold run_poll. cbn [loop_retrier loop_opts].
  destruct (retry (droplet_retrier (new_DigitalOceanProvider t) (JsNum (droplet_id d)))
              create_opts w s1) as [[v|e|c] s2]; reflexivity.
Qed.

(** X5.  When the token and the key are there but the create request is
    rejected, [create digitalocean] ends normally: the failure is on
    standard error, no poll is started, and the process is not made to
    exit with an error code. *)
Theorem provision_refused_create (w : World) (s : Trace) (t : string)
    (pre post : list SSHKey) (k : SSHKey) (err : GotError) :
  NCSU_DOTOKEN w = Some t -> t <> "" ->
  account_keys (got w (calls s) (keys_request (new_DigitalOceanProvider t)))
  = pre ++ k :: post ->
  key_name k = "csc519" ->
  (forall k', In k' pre -> key_name k' <> "csc519") ->
  got w (S (calls s))
      (post_request (new_DigitalOceanProvider t) (provision_data w (key_id k)))
  = Rejected err ->
  exists s',
    hw0 (create digitalocean) w s = (Returned tt, s') /\
    exit_code (hw0 (create digitalocean) w s) = None /\
    invocations s' = invocations s /\
    calls s' = (calls s + 2)%nat /\
    last s' (Sleep 0)
    = Console Stderr red ("createDroplet: " +++ show_GotError err).
Proof.
  intros Htoken Hne Hkeys Hname Hpre Hpost. unfold provision_data in Hpost.
  cbn [hw0]. rewrite (provision_after_create w s t Htoken Hne).
  rewrite (createDroplet_found_run (new_DigitalOceanProvider t)
             ("jwmanes2-" +++ uuid_v4 w) "nyc1" "ubuntu-19-10-x64" "csc519"
             w s pre post k) by (assumption || discriminate).
  cbv zeta. rewrite Hpost. eexists. split; [reflexivity|].
  split; [reflexivity|]. split; [|split].
  - counts. lia.
  - counts. lia.
  - now rewrite last_last.
Qed.

Lemma provision_refused_create_witness :
  exists s',
    hw0 (create digitalocean) refusing_world [] = (Returned tt, s') /\
    exit_code (hw0 (create digitalocean) refusing_world []) = None /\
    invocations s' = 0%nat /\
    calls s' = 2%nat /\
    last s' (Sleep 0)
    = Console Stderr red "createDroplet: HTTPError: Response code 422".
Proof.
  apply (provision_refused_create refusing_world [] "dop_v1_token"
           [{| key_id := 42; key_name := "other" |}] []
           {| key_id := 77; key_name := "csc519" |} (HTTPError 422));
    try discriminate; try reflexivity.
  intros k' [<- | []]. discriminate.
Defined.

(** X6.  When the create request is answered with a droplet, whatever the
    status code, [create digitalocean] goes on to poll that droplet: after
    the key lookup and the create request, every further remote call is
    the describe request for the id the answer carries, and there is at
    least one. *)
Theorem provision_polls_created_droplet (w : World) (s : Trace) (t : string)
    (pre post : list SSHKey) (k : SSHKey)
    (r : HttpResponse) (b : Body) (d : Droplet) :
  NCSU_DOTOKEN w = Some t -> t <> "" ->
  account_keys (got w (calls s) (keys_request (new_DigitalOceanProvider t)))
  = pre ++ k :: post ->
  key_name k = "csc519" ->
  (forall k', In k' pre -> key_name k' <> "csc519") ->
  got w (S (calls s))
      (post_request (new_DigitalOceanProvider t) (provision_data w (key_id k)))
  = Resolved r ->
  body r = Some b -> droplet b = Some d ->
  exists (n : nat) (added : Trace),
    (1 <= n)%nat /\
    snd (hw0 (create digitalocean) w s) = s ++ added /\
    remote_calls added
    = Http (keys_request (new_DigitalOceanProvider t))
      :: Http (post_request (new_DigitalOceanProvider t) (provision_data w (key_id k)))
      :: repeat (Http (droplet_request (new_DigitalOceanProvider t) (droplet_id d))) n.
Proof.
  intros Htoken Hne Hkeys Hname Hpre Hpost Hbody Hdroplet.
  unfold provision_data in *.
  cbn [hw0]. rewrite (provision_after_create w s t Htoken Hne).
  rewrite (createDroplet_found_run (new_DigitalOceanProvider t)
             ("jwmanes2-" +++ uuid_v4 w) "nyc1" "ubuntu-19-10-x64" "csc519"
             w s pre post k) by (assumption || discriminate).
  cbv zeta. rewrite Hpost, Hbody, Hdroplet.
  destruct (statusCode r =? 202); rewrite Hbody, Hdroplet;
    match goal with
    | |- context [run_poll ?L w ?s1] =>
        destruct (run_poll_shape L w s1) as (n & added & Hn & Hs & Htr & _);
        destruct (run_poll L w s1) as [[v|e|c] s2]
    end; cbn [snd] in *; subst s2;
    exists n; eexists; (split; [lia|]);
    (split; [rewrite <- !app_assoc; reflexivity|]);
    rewrite !remote_calls_app, (attempts_trace_remote_calls _ _ _ _ _ _ Htr);
    reflexivity.
Qed.

Lemma provision_polls_created_droplet_witness :
  exists (n : nat) (added : Trace),
    (1 <= n)%nat /\
    snd (hw0 (create digitalocean) stub_world []) = [] ++ added /\
    remote_calls added
    = Http (keys_request stub_client)
      :: Http (post_request stub_client (provision_data stub_world 77))
      :: repeat (Http (droplet_request stub_client 555)) n.
Proof.
  apply (provision_polls_created_droplet stub_world [] "dop_v1_token"
           [{| key_id := 42; key_name := "other" |}] []
           {| key_id := 77; key_name := "csc519" |}
           {| statusCode := 202;
              body := Some {| ssh_keys := None;
                              droplet := Some {| droplet_id := 555;
                                                 networks := None |} |} |}
           {| ssh_keys := None;
              droplet := Some {| droplet_id := 555; networks := None |} |}
           {| droplet_id := 555; networks := None |});
    try discriminate; try reflexivity.
  intros k' [<- | []]. discriminate.
Defined.

(** ** Describing and deleting a droplet *)

(** X7.  [dropletInfo] and [deleteDroplet] never throw and never end the
    process, whatever the id and whatever the service answers; each issues
    at most one remote call. *)
Theorem droplet_methods_never_throw (client : DigitalOceanProvider)
    (id : JsVal) (w : World) (s : Trace) :
  (exists r s', dropletInfo client id w s = (Returned r, s') /\
                (calls s' <= calls s + 1)%nat) /\
  (exists s', deleteDroplet client id w s = (Returned tt, s') /\
              (calls s' <= calls s + 1)%nat).
Proof.
  split.
  - unfold dropletInfo, makeRequest.
    destruct (negb (typeof id =? "number")%string); monad.
    + do 2 eexists. split; [reflexivity|]. counts. lia.
    + match goal with
      | |- context [got w ?n ?r] => destruct (got w n r)
      end; monad; do 2 eexists; (split; [reflexivity|]); counts; lia.
  - unfold deleteDroplet.
    destruct (negb (typeof id =? "number")%string); monad.
    + eexists. split; [reflexivity|]. counts. lia.
    + match goal with
      | |- context [got w ?n ?r] => destruct (got w n r) as [r0|]
      end; monad; [destruct (statusCode r0 =? 204); monad|];
        eexists; (split; [reflexivity|]); counts; lia.
Qed.

(** X8.  [deleteDroplet] announces the deletion only for status 204: an
    answer with any other status is taken without a word, and nothing but
    the one request happens. *)
Theorem deleteDroplet_reports_204 (client : DigitalOceanProvider) (dropletId : Z)
    (w : World) (s : Trace) (r : HttpResponse) :
  got w (calls s) (delete_request client dropletId) = Resolved r ->
  deleteDroplet client (JsNum dropletId) w s
  = (Returned tt,
     s ++ Remote (Http (delete_request client dropletId))
       :: (if statusCode r =? 204
           then [Console Stdout plain ("Deleted droplet " +++ show_Z dropletId)]
           else [])).
Proof.
  intros Hreply. unfold deleteDroplet.
  cbn [typeof js_toString].
  change (negb ("number" =? "number")%string) with false.
  monad. fold (delete_request client dropletId). rewrite Hreply. monad.
  destruct (statusCode r =? 204); monad; [now rewrite <- app_assoc|reflexivity].
Qed.

Lemma deleteDroplet_reports_204_witness :
  deleteDroplet stub_client (JsNum 555) stub_world []
  = (Returned tt,
     [Remote (Http (delete_request stub_client 555));
      Console Stdout plain "Deleted droplet 555"]).
Proof.
  apply (deleteDroplet_reports_204 stub_client 555 stub_world []
           {| statusCode := 204; body := None |}).
  reflexivity.
Defined.

(** ** The token in the requests *)

Lemma createDroplet_by_client client name region image key w s :
  exists added,
    snd (createDroplet client name region image key w s) = s ++ added /\
    Forall (by_client client) (remote_calls added).
Proof.
  assert (Hkeys : by_client client (Http (keys_request client))).
  { eexists. split; reflexivity. }
  unfold createDroplet.
  destruct ((name =? "")%string || (region =? "")%string
            || (image =? "")%string || (key =? "")%string).
  { monad. eexists. split; [reflexivity|]. constructor. }
  unfold findSSHKeyPair, makeRequest. monad. fold (keys_request client).
  destruct (got w (calls s) (keys_request client)) as [r|err]; monad.
  2:{ eexists. split; [rewrite <- !app_assoc; reflexivity|].
      cbn. repeat constructor. exact Hkeys. }
  assert (Hnot_found :
    exists added,
      s ++ [Remote (Http (keys_request client))] = s ++ added /\
      Forall (by_client client) (remote_calls added)).
  { eexists. split; [reflexivity|]. cbn. repeat constructor. exact Hkeys. }
  destruct (body r) as [b|]; [|exact Hnot_found].
  destruct (ssh_keys b) as [keys|]; [|exact Hnot_found].
  destruct (find (fun k => (key_name k =? key)%string) keys) as [k|];
    monad; [|exact Hnot_found].
  clear Hnot_found.
  match goal with
  | |- context [got w ?n ?req] => destruct (got w n req) as [resp|err]
  end; monad;
    [destruct (statusCode resp =? 202); monad;
     [destruct (body resp) as [b'|]; monad;
      [destruct (droplet b') as [d|]; monad|]|]|].
  all: eexists; split; [rewrite <- !app_assoc; reflexivity|];
    cbn; repeat constructor; try exact Hkeys; eexists; split; reflexivity.
Qed.

Lemma deleteDroplet_by_client client id w s :
  exists added,
    snd (deleteDroplet client id w s) = s ++ added /\
    Forall (by_client client) (remote_calls added).
Proof.
  unfold deleteDroplet.
  destruct (negb (typeof id =? "number")%string); monad.
  { eexists. split; [reflexivity|]. constructor. }
  match goal with
  | |- context [got w ?n ?r] => destruct (got w n r) as [r0|]
  end; monad; [destruct (statusCode r0 =? 204); monad|];
    eexists; (split; [rewrite <- ?app_assoc; reflexivity|]);
    cbn; repeat constructor; eexists; split; reflexivity.
Qed.

(** X9.  With the token set, every remote call of a DigitalOcean command
    is an HTTP request with content type JSON that carries the token of
    the environment as its bearer authorisation; no EC2 call is made. *)
Theorem digitalocean_requests_bear_token (cmd : Command) (w : World) (s : Trace)
    (t : string) :
  provider_of cmd = digitalocean ->
  NCSU_DOTOKEN w = Some t -> t <> "" ->
  exists added,
    snd (hw0 cmd w s) = s ++ added /\
    Forall (fun c => exists r,
                c = Http r /\
                req_headers r = {| Content_Type := "application/json";
                                   Authorization := "Bearer " +++ t |})
           (remote_calls added).
Proof.
  intros Hdo Htoken Hne.
  change (fun c => exists r,
              c = Http r /\
              req_headers r = {| Content_Type := "application/json";
                                 Authorization := "Bearer " +++ t |})
    with (by_client (new_DigitalOceanProvider t)).
  destruct cmd as [[|]|[|] id]; try discriminate; cbn [hw0].
  - rewrite (provision_after_create w s t Htoken Hne).
    destruct (createDroplet_by_client (new_DigitalOceanProvider t)
                ("jwmanes2-" +++ uuid_v4 w) "nyc1" "ubuntu-19-10-x64" "csc519" w s)
      as (added1 & Hs1 & Hall1).
    destruct (createDroplet (new_DigitalOceanProvider t)
                ("jwmanes2-" +++ uuid_v4 w) "nyc1" "ubuntu-19-10-x64" "csc519" w s)
      as [[[r|]|e|c] s1]; cbn [snd] in Hs1; subst s1;
      try (exists added1; split; [reflexivity | exact Hall1]).
    destruct (body r) as [b|];
      [|exists added1; split; [reflexivity | exact Hall1]].
    destruct (droplet b) as [d|];
      [|exists added1; split; [reflexivity | exact Hall1]].
    destruct (run_poll_shape (DropletPoll (new_DigitalOceanProvider t) (droplet_id d))
                w (s ++ added1)) as (n & added2 & _ & Hs2 & Htr & _).
    destruct (run_poll (DropletPoll (new_DigitalOceanProvider t) (droplet_id d))
                w (s ++ added1)) as [[v|e|c] s2];
      cbn [snd] in *; subst s2;
      exists (added1 ++ added2);
      (split; [now rewrite app_assoc|]);
      rewrite remote_calls_app, (attempts_trace_remote_calls _ _ _ _ _ _ Htr);
      (apply Forall_app; split; [exact Hall1|]);
      apply Forall_forall; intros c0 Hin; apply repeat_spec in Hin; subst c0;
      eexists; split; reflexivity.
  - unfold destroyDigitalOceanDroplet, bind at 1.
    rewrite (validateDigitalOceanToken_present w s t Htoken Hne).
    apply deleteDroplet_by_client.
Qed.

Lemma digitalocean_requests_bear_token_witness :
  exists added,
    snd (hw0 (rm digitalocean (JsNum 555)) stub_world []) = [] ++ added /\
    Forall (fun c => exists r,
                c = Http r /\
                req_headers r = {| Content_Type := "application/json";
                                   Authorization := "Bearer " +++ "dop_v1_token" |})
           (remote_calls added).
Proof.
  apply (digitalocean_requests_bear_token (rm digitalocean (JsNum 555))
           stub_world [] "dop_v1_token").
  - reflexivity.
  - reflexivity.
  - discriminate.
Defined.

(** ** The AWS client *)

(** X10.  [instanceInfo] always issues exactly one [DescribeInstances] call
    for the given id and prints nothing.  It returns exactly when the call
    resolves with at least one reservation, and then returns the first
    instance of the first reservation ([undefined] when that reservation
    lists none); a rejection of the SDK is thrown on to the caller. *)
Theorem instanceInfo_outcomes (id : JsVal) (w : World) (s : Trace) :
  snd (instanceInfo id w s)
  = s ++ [Remote (Ec2 (DescribeInstances {| InstanceIds := [id] |}))] /\
  (forall r,
      fst (instanceInfo id w s) = Returned r <->
      exists resp r0 rest,
        ec2_describeInstances w (calls s) {| InstanceIds := [id] |} = Resolved resp /\
        Reservations resp = r0 :: rest /\
        r = hd_error (Instances r0)) /\
  (forall err,
      ec2_describeInstances w (calls s) {| InstanceIds := [id] |} = Rejected err ->
      fst (instanceInfo id w s) = Thrown (AwsError err)).
Proof.
  unfold instanceInfo. monad.
  destruct (ec2_describeInstances w (calls s) {| InstanceIds := [id] |})
    as [resp|err0]; monad.
  - destruct (Reservations resp) as [|r0 rest] eqn:Hres; cbn [hd_error]; monad.
    + split; [reflexivity|]. split; [|discriminate].
      intros r. split; [discriminate|].
      intros (resp' & r0 & rest & Hresp & Hres' & _).
      injection Hresp as <-. congruence.
    + split; [reflexivity|]. split; [|discriminate].
      intros r. split.
      * intros [= <-]. now exists resp, r0, rest.
      * intros (resp' & r0' & rest' & Hresp & Hres' & ->).
        injection Hresp as <-. rewrite Hres in Hres'.
        now injection Hres' as <- _.
  - split; [reflexivity|]. split.
    + intros r. split; [discriminate|].
      intros (resp & _ & _ & Hresp & _). discriminate.
    + now intros err [= <-].
Qed.

(** X11.  [createInstance] returns only after three calls that all
    resolved, in this order and once each: [RunInstances] with the image
    and key name, [CreateTags] that names the first launched instance with
    the given name, and [DescribeInstances] for that instance, whose first
    listed instance is the result. *)
Theorem createInstance_returns_after_three_calls
    (name region image key : string) (w : World) (s s' : Trace)
    (r : option Instance) :
  createInstance name region image key w s = (Returned r, s') ->
  exists resp i0 others dresp r0 rest,
    ec2_runInstances w (calls s) (instanceParams image key) = Resolved resp /\
    run_Instances resp = i0 :: others /\
    ec2_createTags w (S (calls s)) (name_tag (InstanceId i0) name) = Resolved tt /\
    ec2_describeInstances w (S (S (calls s)))
      {| InstanceIds := [JsStr (InstanceId i0)] |} = Resolved dresp /\
    Reservations dresp = r0 :: rest /\
    r = hd_error (Instances r0) /\
    s' = s ++ [Remote (Ec2 (RunInstances (instanceParams image key)));
               Remote (Ec2 (CreateTags (name_tag (InstanceId i0) name)));
               Remote (Ec2 (DescribeInstances
                              {| InstanceIds := [JsStr (InstanceId i0)] |}))].
Proof.
  unfold createInstance, instanceInfo. monad.
  destruct (ec2_runInstances w (calls s) (instanceParams image key))
    as [resp|] eqn:Hrun; monad; [|discriminate].
  destruct (run_Instances resp) as [|i0 others] eqn:Hinst; cbn [hd_error]; monad;
    [discriminate|].
  fold (name_tag (InstanceId i0) name).
  rewrite calls_snoc_remote.
  destruct (ec2_createTags w (S (calls s)) (name_tag (InstanceId i0) name))
    as [[]|] eqn:Htag; monad; [|discriminate].
  rewrite !calls_snoc_remote.
  destruct (ec2_describeInstances w (S (S (calls s)))
              {| InstanceIds := [JsStr (InstanceId i0)] |})
    as [dresp|] eqn:Hdesc; monad; [|discriminate].
  destruct (Reservations dresp) as [|r0 rest] eqn:Hres; cbn [hd_error]; monad;
    [discriminate|].
  intros [= <- <-].
  exists resp, i0, others, dresp, r0, rest.
  repeat split; try assumption. now rewrite <- !app_assoc.
Qed.

Lemma createInstance_returns_after_three_calls_witness :
  exists resp i0 others dresp r0 rest,
    ec2_runInstances stub_world (calls []) (instanceParams "ami-1" "csc519")
    = Resolved resp /\
    run_Instances resp = i0 :: others /\
    ec2_createTags stub_world (S (calls [])) (name_tag (InstanceId i0) "web")
    = Resolved tt /\
    ec2_describeInstances stub_world (S (S (calls [])))
      {| InstanceIds := [JsStr (InstanceId i0)] |} = Resolved dresp /\
    Reservations dresp = r0 :: rest /\
    Some (stub_instance None) = hd_error (Instances r0) /\
    snd (createInstance "web" "us-east-1" "ami-1" "csc519" stub_world [])
    = [] ++ [Remote (Ec2 (RunInstances (instanceParams "ami-1" "csc519")));
             Remote (Ec2 (CreateTags (name_tag (InstanceId i0) "web")));
             Remote (Ec2 (DescribeInstances
                            {| InstanceIds := [JsStr (InstanceId i0)] |}))].
Proof.
  apply (createInstance_returns_after_three_calls
           "web" "us-east-1" "ami-1" "csc519" stub_world []
           (snd (createInstance "web" "us-east-1" "ami-1" "csc519" stub_world []))
           (Some (stub_instance None))).
  reflexivity.
Defined.

(** X12.  When the instance is launched but [CreateTags] is rejected,
    [createInstance] throws the SDK's error after exactly these two calls:
    the instance stays launched and untagged, nothing is described and
    nothing is terminated. *)
Theorem createInstance_tagging_rejected
    (name region image key : string) (w : World) (s : Trace)
    (resp : RunInstancesResult) (i0 : Instance) (others : list Instance)
    (err : string) :
  ec2_runInstances w (calls s) (instanceParams image key) = Resolved resp ->
  run_Instances resp = i0 :: others ->
  ec2_createTags w (S (calls s)) (name_tag (InstanceId i0) name) = Rejected err ->
  createInstance name region image key w s
  = (Thrown (AwsError err),
     s ++ [Remote (Ec2 (RunInstances (instanceParams image key)));
           Remote (Ec2 (CreateTags (name_tag (InstanceId i0) name)))]).
Proof.
  intros Hrun Hinst Htag. unfold createInstance. monad.
  rewrite Hrun. monad. rewrite Hinst. cbn [hd_error]. monad.
  fold (name_tag (InstanceId i0) name).
  rewrite calls_snoc_remote, Htag. monad. now rewrite <- app_assoc.
Qed.

Lemma createInstance_tagging_rejected_witness :
  createInstance "web" "us-east-1" "ami-1" "csc519" refusing_world []
  = (Thrown (AwsError "UnauthorizedOperation"),
     [Remote (Ec2 (RunInstances (instanceParams "ami-1" "csc519")));
      Remote (Ec2 (CreateTags (name_tag "i-0abc" "web")))]).
Proof.
  apply (createInstance_tagging_rejected "web" "us-east-1" "ami-1" "csc519"
           refusing_world [] {| run_Instances := [stub_instance None] |}
           (stub_instance None) [] "UnauthorizedOperation");
    reflexivity.
Defined.

(** ** Terminating an instance, further *)

(** X13.  What [deleteInstance] returns is the answer to its first
    [TerminateInstances] call, issued before the poll: the states the poll
    sees later are not in the result. *)
Theorem deleteInstance_returns_first_answer (id : JsVal) (w : World)
    (s s' : Trace) (r : TerminateInstancesResult) :
  deleteInstance id w s = (Returned r, s') ->
  ec2_terminateInstances w (calls s) {| InstanceIds := [id] |} = Resolved r.
Proof.
  unfold deleteInstance. monad.
  destruct (ec2_terminateInstances w (calls s) {| InstanceIds := [id] |})
    as [resp|]; monad; [|discriminate].
  match goal with
  | |- context [retry ?fn ?o w ?s1] => destruct (retry fn o w s1) as [[v|e|c] s2]
  end; try discriminate.
  now intros [= <- _].
Qed.

Lemma deleteInstance_returns_first_answer_witness :
  ec2_terminateInstances stub_world (calls []) {| InstanceIds := [JsStr "i-0abc"] |}
  = Resolved {| TerminatingInstances :=
                  [{| CurrentState := {| Name := "shutting-down" |} |}] |}.
Proof.
  apply (deleteInstance_returns_first_answer (JsStr "i-0abc") stub_world []
           (snd (deleteInstance (JsStr "i-0abc") stub_world []))).
  reflexivity.
Defined.

(** X14.  When the first [TerminateInstances] call is rejected,
    [deleteInstance] throws the SDK's error at once: one call, no waiting
    message, no poll. *)
Theorem deleteInstance_first_call_rejected (id : JsVal) (w : World) (s : Trace)
    (err : string) :
  ec2_terminateInstances w (calls s) {| InstanceIds := [id] |} = Rejected err ->
  deleteInstance id w s
  = (Thrown (AwsError err),
     s ++ [Remote (Ec2 (TerminateInstances {| InstanceIds := [id] |}))]).
Proof.
  intros Hreply. unfold deleteInstance. monad. now rewrite Hreply.
Qed.

Lemma deleteInstance_first_call_rejected_witness :
  deleteInstance (JsStr "i-gone") refusing_world []
  = (Thrown (AwsError "InvalidInstanceID.NotFound"),
     [Remote (Ec2 (TerminateInstances {| InstanceIds := [JsStr "i-gone"] |}))]).
Proof.
  apply (deleteInstance_first_call_rejected (JsStr "i-gone") refusing_world []
           "InvalidInstanceID.NotFound").
  reflexivity.
Defined.

Lemma includes_terminalStates (x : string) :
  includes terminalStates x = true <-> x = "stopped" \/ x = "terminated".
Proof.
  unfold includes, terminalStates. cbn [existsb]. rewrite orb_false_r.
  rewrite orb_true_iff, !String.eqb_eq. split; intros [H|H]; auto.
Qed.

(** X15.  One attempt of the termination poll returns exactly when the
    call resolves and the first instance it lists is in state [stopped] or
    [terminated], and it returns that state; any other state, an empty
    list or a rejection makes the attempt fail.  Only the first listed
    instance is looked at. *)
Theorem termination_retrier_returns (params : IdParams) (w : World) (s : Trace)
    (v : string) :
  fst (termination_retrier params w s) = Returned v <->
  exists resp t0 rest,
    ec2_terminateInstances w (calls s) params = Resolved resp /\
    TerminatingInstances resp = t0 :: rest /\
    Name (CurrentState t0) = v /\
    (v = "stopped" \/ v = "terminated").
Proof.
  unfold termination_retrier. monad.
  destruct (ec2_terminateInstances w (calls s) params) as [resp|err]; monad.
  - destruct (TerminatingInstances resp) as [|t0 rest] eqn:Hlist;
      cbn [hd_error]; monad.
    + split; [discriminate|].
      intros (resp' & t0 & rest & Hresp & Hlist' & _).
      injection Hresp as <-. congruence.
    + destruct (includes terminalStates (Name (CurrentState t0))) eqn:Hin; monad.
      * split.
        -- intros [= <-]. exists resp, t0, rest.
           repeat split; try assumption. now apply includes_terminalStates.
        -- intros (resp' & t0' & rest' & Hresp & Hlist' & Hname & _).
           injection Hresp as <-. rewrite Hlist in Hlist'.
           injection Hlist' as <- _. now rewrite Hname.
      * split; [discriminate|].
        intros (resp' & t0' & rest' & Hresp & Hlist' & Hname & Hstate).
        injection Hresp as <-. rewrite Hlist in Hlist'.
        injection Hlist' as <- _.
        apply includes_terminalStates in Hstate. congruence.
  - split; [discriminate|].
    intros (resp & _ & _ & Hresp & _). discriminate.
Qed.

(** ** AWS commands and the DigitalOcean token *)

Lemma poll_same_world {A} (fn : M A) (o : RetryOpts) (w w' : World) :
  (forall s, fn w' s = fn w s) ->
  jitter w' = jitter w ->
  forall (left a : nat) (s : Trace),
    poll fn o left a w' s = poll fn o left a w s.
Proof.
  intros Hfn Hjitter. induction left as [|left IH]; intros a s; [reflexivity|].
  cbn [poll]. rewrite Hfn.
  destruct (fn w (s ++ [Invoke a])) as [[v|e|c] s1]; try reflexivity.
  destruct left as [|left']; [reflexivity|].
  rewrite Hjitter. apply IH.
Qed.

(** Case analysis on the next reply of the EC2 SDK or on the next test. *)
Ltac next_case :=
  match goal with
  | |- context [ec2_runInstances ?w ?n ?p] => destruct (ec2_runInstances w n p)
  | |- context [ec2_createTags ?w ?n ?p] => destruct (ec2_createTags w n p)
  | |- context [ec2_describeInstances ?w ?n ?p] => destruct (ec2_describeInstances w n p)
  | |- context [ec2_terminateInstances ?w ?n ?p] => destruct (ec2_terminateInstances w n p)
  | |- context [hd_error ?l] => destruct (hd_error l)
  | |- context [if ?b then _ else _] => destruct b
  end.

Ltac same_world :=
  repeat (monad;
          cbn [with_token ec2_runInstances ec2_createTags
               ec2_describeInstances ec2_terminateInstances];
          try reflexivity; next_case).

Lemma createInstance_with_token t name region image key w s :
  createInstance name region image key (with_token t w) s
  = createInstance name region image key w s.
Proof.
  unfold createInstance, instanceInfo. same_world.
Qed.

Lemma retry_instance_with_token t id o w s :
  retry (instance_retrier id) o (with_token t w) s
  = retry (instance_retrier id) o w s.
Proof.
  unfold retry. apply poll_same_world; [|reflexivity].
  intros s0. unfold instance_retrier, instanceInfo. same_world.
Qed.

Lemma retry_termination_with_token t params o w s :
  retry (termination_retrier params) o (with_token t w) s
  = retry (termination_retrier params) o w s.
Proof.
  unfold retry. apply poll_same_world; [|reflexivity].
  intros s0. unfold termination_retrier. same_world.
Qed.

(** X16.  An AWS command runs the same whatever [NCSU_DOTOKEN] holds, set
    or not: same outcome, same output, same calls. *)
Theorem aws_commands_ignore_token (cmd : Command) (t : option string)
    (w : World) (s : Trace) :
  provider_of cmd = aws ->
  hw0 cmd (with_token t w) s = hw0 cmd w s.
Proof.
  intros Haws. destruct cmd as [[|]|[|] id]; try discriminate; cbn [hw0].
  - unfold provisionAWSInstance. monad. cbn [uuid_v4 with_token].
    rewrite createInstance_with_token.
    destruct (createInstance ("jwmanes2-" +++ uuid_v4 w) "us-east-1"
                "ami-0b6b1f8f449568786" "csc519" w _) as [[[i|]|e|c] s1];
      monad; try reflexivity.
    now rewrite retry_instance_with_token.
  - unfold destroyAWSInstance, deleteInstance. monad.
    cbn [ec2_terminateInstances with_token].
    destruct (ec2_terminateInstances w _ _) as [resp|err]; monad; [|reflexivity].
    now rewrite retry_termination_with_token.
Qed.

Lemma aws_commands_ignore_token_witness :
  hw0 (rm aws (JsStr "i-0abc")) (with_token None stub_world) []
  = hw0 (rm aws (JsStr "i-0abc")) stub_world [].
Proof.
  apply (aws_commands_ignore_token (rm aws (JsStr "i-0abc")) None stub_world []).
  reflexivity.
Defined.

Lemma run_poll_no_exit (L : PollLoop) (w : World) (s : Trace) (c : Z) :
  fst (run_poll L w s) <> Exited c.
Proof.
  destruct (run_poll_shape L w s) as (k & added & _ & _ & _ & _ & Hres).
  destruct Hres as [(v & _ & ->) | (_ & _ & ->)]; discriminate.
Qed.

Lemma createInstance_only_ec2 name region image key w s :
  exists added,
    snd (createInstance name region image key w s) = s ++ added /\
    forallb is_ec2 (remote_calls added) = true /\
    forall c, fst (createInstance name region image key w s) <> Exited c.
Proof.
  unfold createInstance, instanceInfo.
  repeat (monad; try next_case).
  all: eexists; split; [rewrite <- ?app_assoc; reflexivity|];
    split; [reflexivity | discriminate].
Qed.

(** X17.  An AWS command never ends the process through [process.exit]
    and never sends an HTTP request: all its remote calls are calls of the
    EC2 SDK. *)
Theorem aws_commands_only_ec2 (cmd : Command) (w : World) (s : Trace) :
  provider_of cmd = aws ->
  exit_code (hw0 cmd w s) = None /\
  exists added,
    snd (hw0 cmd w s) = s ++ added /\
    forallb is_ec2 (remote_calls added) = true.
Proof.
  intros Haws. destruct cmd as [[|]|[|] id]; try discriminate; cbn [hw0].
  - unfold provisionAWSInstance, exit_code. monad.
    destruct (createInstance_only_ec2 ("jwmanes2-" +++ uuid_v4 w) "us-east-1"
                "ami-0b6b1f8f449568786" "csc519" w
                (s ++ [Console Stdout plain "Creating AWS instance..."]))
      as (added1 & Hs1 & Hec2 & Hexit).
    destruct (createInstance ("jwmanes2-" +++ uuid_v4 w) "us-east-1"
                "ami-0b6b1f8f449568786" "csc519" w _) as [[[i|]|e|c] s1];
      cbn [fst snd] in *; subst s1; monad.
    + change (retry (instance_retrier (JsStr (InstanceId i))) create_opts)
        with (run_poll (InstancePoll (JsStr (InstanceId i)))).
      match goal with
      | |- context [run_poll ?L w ?s1] =>
          pose proof (run_poll_no_exit L w s1) as Hpoll;
          destruct (run_poll_shape L w s1) as (n & added2 & _ & Hs2 & Htr & _);
          destruct (run_poll L w s1) as [[v|e|c] s2]
      end; cbn [fst snd] in *; subst s2;
        try (exfalso; now apply (Hpoll c));
        (split; [reflexivity|]); eexists;
        (split; [rewrite <- !app_assoc; reflexivity|]);
        rewrite !remote_calls_app, (attempts_trace_remote_calls _ _ _ _ _ _ Htr),
          !forallb_app, Hec2; cbn;
        clear; induction n; auto.
    + split; [reflexivity|]. eexists.
      split; [rewrite <- !app_assoc; reflexivity|].
      now rewrite remote_calls_app, forallb_app, Hec2.
    + split; [reflexivity|]. eexists.
      split; [rewrite <- !app_assoc; reflexivity|].
      now rewrite remote_calls_app, forallb_app, Hec2.
    + exfalso. now apply (Hexit c).
  - unfold destroyAWSInstance, deleteInstance, exit_code. monad.
    match goal with
    | |- context [ec2_terminateInstances w ?n ?p] =>
        destruct (ec2_terminateInstances w n p) as [resp|err]
    end; monad.
    + change (retry (termination_retrier {| InstanceIds := [id] |}) termination_opts)
        with (run_poll (TerminationPoll {| InstanceIds := [id] |})).
      match goal with
      | |- context [run_poll ?L w ?s1] =>
          pose proof (run_poll_no_exit L w s1) as Hpoll;
          destruct (run_poll_shape L w s1) as (n & added2 & _ & Hs2 & Htr & _);
          destruct (run_poll L w s1) as [[v|e|c] s2]
      end; cbn [fst snd] in *; subst s2;
        try (exfalso; now apply (Hpoll c));
        (split; [reflexivity|]); eexists;
        (split; [rewrite <- !app_assoc; reflexivity|]);
        rewrite !remote_calls_app, (attempts_trace_remote_calls _ _ _ _ _ _ Htr),
          !forallb_app; cbn;
        clear; induction n; auto.
    + split; [reflexivity|]. eexists.
      split; [rewrite <- !app_assoc; reflexivity|]. reflexivity.
Qed.

Lemma aws_commands_only_ec2_witness :
  exit_code (hw0 (create aws) stub_world []) = None /\
  exists added,
    snd (hw0 (create aws) stub_world []) = [] ++ added /\
    forallb is_ec2 (remote_calls added) = true.
Proof.
  apply (aws_commands_only_ec2 (create aws) stub_world []).
  reflexivity.
Defined.

(** ** Provisioning an instance *)

(** X18.  Once [createInstance] has returned an instance, [create aws]
    polls that instance: every further remote call is [DescribeInstances]
    for the id of the instance that was returned, and there is at least
    one.  When [createInstance] returns [undefined] instead (the first
    reservation lists no instance), the command throws a [TypeError]
    without polling. *)
Theorem provisionAWSInstance_polls_described_instance (w : World) (s s1 : Trace)
    (result : option Instance) :
  createInstance ("jwmanes2-" +++ uuid_v4 w) "us-east-1" "ami-0b6b1f8f449568786"
    "csc519" w (s ++ [Console Stdout plain "Creating AWS instance..."])
  = (Returned result, s1) ->
  match result with
  | Some instance =>
      exists (n : nat) (added : Trace),
        (1 <= n)%nat /\
        snd (hw0 (create aws) w s) = s1 ++ added /\
        remote_calls added
        = repeat (Ec2 (DescribeInstances
                         {| InstanceIds := [JsStr (InstanceId instance)] |})) n
  | None =>
      hw0 (create aws) w s
      = (Thrown (TypeError "Cannot read property 'InstanceId' of undefined"), s1)
  end.
Proof.
  intros Hcreate. cbn [hw0]. unfold provisionAWSInstance. monad.
  rewrite Hcreate. destruct result as [instance|]; monad; [|reflexivity].
  change (retry (instance_retrier (JsStr (InstanceId instance))) create_opts)
    with (run_poll (InstancePoll (JsStr (InstanceId instance)))).
  match goal with
  | |- context [run_poll ?L w ?s2] =>
      destruct (run_poll_shape L w s2) as (n & added2 & Hn & Hs2 & Htr & _);
      destruct (run_poll L w s2) as [[v|e|c] s3]
  end; cbn [snd] in *; subst s3;
    exists n; eexists; (split; [lia|]);
    (split; [rewrite <- !app_assoc; reflexivity|]);
    rewrite !remote_calls_app, (attempts_trace_remote_calls _ _ _ _ _ _ Htr);
    reflexivity.
Qed.

Lemma provisionAWSInstance_polls_described_instance_witness :
  exists (n : nat) (added : Trace),
    (1 <= n)%nat /\
    snd (hw0 (create aws) stub_world [])
    = snd (createInstance ("jwmanes2-" +++ uuid_v4 stub_world) "us-east-1"
             "ami-0b6b1f8f449568786" "csc519" stub_world
             ([] ++ [Console Stdout plain "Creating AWS instance..."])) ++ added /\
    remote_calls added
    = repeat (Ec2 (DescribeInstances {| InstanceIds := [JsStr "i-0abc"] |})) n.
Proof.
  apply (provisionAWSInstance_polls_described_instance stub_world []
           (snd (createInstance ("jwmanes2-" +++ uuid_v4 stub_world) "us-east-1"
                   "ami-0b6b1f8f449568786" "csc519" stub_world
                   ([] ++ [Console Stdout plain "Creating AWS instance..."])))
           (Some (stub_instance None))).
  reflexivity.
Defined.

(** ** One attempt of the droplet poll *)

(** X19.  A describe request that is rejected during the droplet poll does
    not surface as a transport error: [makeRequest] logs it on standard
    error and the attempt fails like any attempt whose droplet has no
    network yet, so the loop treats it as not ready. *)
Theorem droplet_retrier_rejected_describe (client : DigitalOceanProvider)
    (dropletId : Z) (w : World) (s : Trace) (err : GotError) :
  got w (calls s) (droplet_request client dropletId) = Rejected err ->
  droplet_retrier client (JsNum dropletId) w s
  = (Thrown (Error "Droplet networking not ready..."),
     s ++ [Remote (Http (droplet_request client dropletId));
           Console Stderr plain
             (url (droplet_request client dropletId) +++ " " +++ show_GotError err)]).
Proof.
  intros Hreply. unfold droplet_retrier, dropletInfo, makeRequest.
  cbn [typeof js_toString].
  change (negb ("number" =? "number")%string) with false.
  monad. fold (droplet_request client dropletId). rewrite Hreply. monad.
  now rewrite <- app_assoc.
Qed.

Lemma droplet_retrier_rejected_describe_witness :
  droplet_retrier stub_client (JsNum 555) unreachable_world []
  = (Thrown (Error "Droplet networking not ready..."),
     [Remote (Http (droplet_request stub_client 555));
      Console Stderr plain
        "https://api.digitalocean.com/v2/droplets/555 RequestError: connect ETIMEDOUT"]).
Proof.
  apply (droplet_retrier_rejected_describe stub_client 555 unreachable_world []
           (RequestError "connect ETIMEDOUT")).
  reflexivity.
Defined.

(** X20.  When the described droplet has entries in [networks.v4], the
    attempt returns the address of the first entry and prints it; further
    entries are not looked at. *)
Theorem droplet_retrier_first_address (client : DigitalOceanProvider)
    (dropletId : Z) (w : World) (s : Trace)
    (r : HttpResponse) (b : Body) (d : Droplet) (n : Networks)
    (net : NetworkV4) (rest : list NetworkV4) :
  got w (calls s) (droplet_request client dropletId) = Resolved r ->
  body r = Some b -> droplet b = Some d ->
  networks d = Some n -> v4 n = Some (net :: rest) ->
  droplet_retrier client (JsNum dropletId) w s
  = (Returned (ip_address net),
     s ++ [Remote (Http (droplet_request client dropletId));
           Console Stdout plain ("IP: " +++ ip_address net)]).
Proof.
  intros Hreply Hbody Hdroplet Hnets Hv4.
  unfold droplet_retrier, dropletInfo, makeRequest.
  cbn [typeof js_toString].
  change (negb ("number" =? "number")%string) with false.
  monad. fold (droplet_request client dropletId). rewrite Hreply. monad.
  rewrite Hbody. monad. rewrite Hdroplet.
  unfold networking_ready, first_v4. rewrite Hnets, Hv4.
  cbn [length Nat.ltb Nat.leb hd_error]. monad.
  now rewrite <- app_assoc.
Qed.

Lemma droplet_retrier_first_address_witness :
  droplet_retrier stub_client (JsNum 555) stub_world (two_calls ++ two_calls)
  = (Returned "203.0.113.5",
     (two_calls ++ two_calls)
       ++ [Remote (Http (droplet_request stub_client 555));
           Console Stdout plain "IP: 203.0.113.5"]).
Proof.
  apply (droplet_retrier_first_address stub_client 555 stub_world
           (two_calls ++ two_calls)
           (stub_droplet [{| ip_address := "203.0.113.5"; type := "public" |}])
           {| ssh_keys := None;
              droplet := Some {| droplet_id := 555;
                                 networks := Some {| v4 := Some [{| ip_address := "203.0.113.5"; type := "public" |}] |} |} |}
           {| droplet_id := 555;
              networks := Some {| v4 := Some [{| ip_address := "203.0.113.5"; type := "public" |}] |} |}
           {| v4 := Some [{| ip_address := "203.0.113.5"; type := "public" |}] |}
           {| ip_address := "203.0.113.5"; type := "public" |} []);
    reflexivity.
Defined.
